(** * DolphinVisionNode: a shallow embedding of [dolphin_vision_node.py]

    The node drives a pretrained vision-language model through a handful of
    external collaborators (model provider, tokenizer, quantization backend,
    image conversion).  The embedding keeps the node's own control flow
    (field updates, early returns, [try]/[except] nesting) and treats every
    collaborator call as an oracle that either returns a value or raises a
    Python exception.  Each oracle call is recorded in a trace, so that
    statements about "what was attempted, and in which order" can be made. *)

From Stdlib Require Import String Ascii List ZArith Lia Bool Arith.
From Stdlib Require Import DecimalString.
Import ListNotations.
Local Open Scope string_scope.
Local Open Scope list_scope.

(** String concatenation, as in the f-strings of the source. *)
Infix "+++" := String.append (at level 60, right associativity).

(** ** Python values, exceptions and tensors *)

Inductive exn_class :=
| ValueError
| IndexError
| TypeError
| AttributeError
| RuntimeError
| OSError
| PreTrainedModelNotFoundError
| OtherException.

(** An exception instance: its class and [str(e)].  Only subclasses of
    [Exception] are represented. *)
Record exn := Exn { exn_cls : exn_class; exn_msg : string }.

(** A tensor is known by its shape and its raw storage. *)
Record tensor := Tensor { shape : list nat; storage : list Byte.byte }.

(** The dynamically typed values the node may be handed by its host.
    [PyObject hashable truthy] is any other object, known only through the
    two observations the code makes of such a value. *)
Inductive pyval :=
| PyNone
| PyBool (b : bool)
| PyInt (z : Z)
| PyStr (s : string)
| PyTensor (t : tensor)
| PyObject (hashable truthy : bool).


(** [**kwargs]: keyword arguments in call order. *)
Definition kwargs := list (string * pyval).

Fixpoint kwargs_get (kw : kwargs) (key : string) (default : pyval) : pyval :=
  match kw with
  | [] => default
  | (k, v) :: kw' => if String.eqb k key then v else kwargs_get kw' key default
  end.

(** Handles of the external objects. *)
Definition Model := nat.
Definition Tokenizer := nat.
Definition PILImage := nat.
Definition ImageFeatures := nat.

Inductive outcome (A : Type) :=
| Ret (a : A)
| Raise (e : exn).
Arguments Ret {A} a.
Arguments Raise {A} e.

(** ** The node object *)

(** Instance attributes.  [__init__] assigns the first five; no statement of
    the class ever assigns [self.cache], so that attribute is present only if
    something outside the class put it there. *)
Record DolphinVisionNode := Node {
  model_name : string;
  device : string;
  model : option Model;
  tokenizer : option Tokenizer;
  quantized : bool;
  attr_cache : option pyval
}.

Definition init (cuda_is_available : bool) : DolphinVisionNode :=
  {| model_name := "cognitivecomputations/dolphin-vision-7b";
     device := if cuda_is_available then "cuda" else "cpu";
     model := None;
     tokenizer := None;
     quantized := false;
     attr_cache := None |}.

Definition set_model (m : option Model) (n : DolphinVisionNode) :=
  {| model_name := model_name n; device := device n; model := m;
     tokenizer := tokenizer n; quantized := quantized n;
     attr_cache := attr_cache n |}.

Definition set_tokenizer (t : option Tokenizer) (n : DolphinVisionNode) :=
  {| model_name := model_name n; device := device n; model := model n;
     tokenizer := t; quantized := quantized n;
     attr_cache := attr_cache n |}.

Definition set_quantized (q : bool) (n : DolphinVisionNode) :=
  {| model_name := model_name n; device := device n; model := model n;
     tokenizer := tokenizer n; quantized := q;
     attr_cache := attr_cache n |}.

(** ** External collaborators *)

(** One record of oracles describes how the collaborators answer during one
    invocation.  An oracle that stands for a compound source expression is
    named after the call and documented with the expression. *)
Record Collab := {
  (* AutoModelForCausalLM.from_pretrained(name, torch_dtype=bfloat16, ...) *)
  model_from_pretrained : string -> outcome Model;
  (* quantize_model(name, quantization_method="bitsandbytes", device, cache, bits) *)
  quantize_model : string -> string -> pyval -> option Z -> outcome (option Model);
  (* AutoTokenizer.from_pretrained(name, trust_remote_code=True) *)
  tokenizer_from_pretrained : string -> outcome Tokenizer;
  (* model.eval() *)
  model_eval : Model -> outcome unit;
  (* ToPILImage()(img.permute(2, 0, 1)) *)
  to_pil_image : tensor -> outcome PILImage;
  (* tokenizer.apply_chat_template(messages, tokenize=False, add_generation_prompt=True),
     given the content of the single user message *)
  apply_chat_template : Tokenizer -> string -> outcome string;
  (* tokenizer(chunk).input_ids *)
  tokenize : Tokenizer -> string -> outcome (list Z);
  (* model.process_images(pil_images, model.config).to(dtype=model.dtype) *)
  process_images : Model -> list PILImage -> outcome ImageFeatures;
  (* input_ids.to(device) *)
  ids_to_device : string -> list (list Z) -> outcome unit;
  (* image_tensor.to(device) *)
  features_to_device : string -> ImageFeatures -> outcome unit;
  (* model.generate(input_ids, images=..., max_new_tokens=2048, use_cache=True)[0] *)
  generate : Model -> list (list Z) -> ImageFeatures -> Z -> outcome (list Z);
  (* tokenizer.decode(ids, skip_special_tokens=True) *)
  decode : Tokenizer -> list Z -> outcome string;
  (* unload_model(model), from utils.quantization_utils *)
  unload_model : option Model -> outcome unit
}.

(** What the trace records: one event per collaborator call. *)
Inductive event :=
| EvModelFromPretrained (name : string)
| EvQuantizeModel (name dev : string) (cache : pyval) (bits : option Z)
| EvTokenizerFromPretrained (name : string)
| EvModelEval (m : Model)
| EvToPILImage (img : tensor)
| EvApplyChatTemplate (content : string)
| EvTokenize (chunk : string)
| EvProcessImages (m : Model) (imgs : list PILImage)
| EvIdsToDevice (dev : string)
| EvFeaturesToDevice (dev : string)
| EvGenerate (m : Model) (input_ids : list (list Z))
| EvDecode (ids : list Z)
| EvUnloadModel (m : option Model).

(** ** The monad of node methods: state, exceptions and a trace *)

Definition M (A : Type) : Type :=
  DolphinVisionNode -> outcome A * DolphinVisionNode * list event.

Definition ret {A} (a : A) : M A := fun n => (Ret a, n, []).

Definition raise {A} (e : exn) : M A := fun n => (Raise e, n, []).

Definition bind {A B} (m : M A) (k : A -> M B) : M B :=
  fun n =>
    match m n with
    | (Ret a, n1, t1) =>
        match k a n1 with
        | (r, n2, t2) => (r, n2, t1 ++ t2)
        end
    | (Raise e, n1, t1) => (Raise e, n1, t1)
    end.

(** [try: m except handler]: [handler e = None] means that no [except]
    clause matches [e], which then keeps propagating. *)
Definition try_except {A} (m : M A) (handler : exn -> option (M A)) : M A :=
  fun n =>
    match m n with
    | (Ret a, n1, t1) => (Ret a, n1, t1)
    | (Raise e, n1, t1) =>
        match handler e with
        | Some h =>
            match h n1 with
            | (r, n2, t2) => (r, n2, t1 ++ t2)
            end
        | None => (Raise e, n1, t1)
        end
    end.

Definition get : M DolphinVisionNode := fun n => (Ret n, n, []).

Definition modify (f : DolphinVisionNode -> DolphinVisionNode) : M unit :=
  fun n => (Ret tt, f n, []).

(** A collaborator call: log the event, then answer as the oracle does. *)
Definition call {A} (ev : event) (o : outcome A) : M A :=
  fun n => (o, n, [ev]).

Declare Scope node_scope.
Delimit Scope node_scope with node.
Notation "x <- m ;; k" := (bind m (fun x => k))
  (at level 61, m at next level, right associativity) : node_scope.
Notation "m ;;; k" := (bind m (fun _ => k))
  (at level 61, right associativity) : node_scope.
Local Open Scope node_scope.

Definition result {A} (r : outcome A * DolphinVisionNode * list event) : outcome A :=
  fst (fst r).
Definition final {A} (r : outcome A * DolphinVisionNode * list event) : DolphinVisionNode :=
  snd (fst r).
Definition trace {A} (r : outcome A * DolphinVisionNode * list event) : list event :=
  snd r.

(** [except Exception as e]: catches everything represented here. *)
Definition except_Exception {A} (h : exn -> M A) : exn -> option (M A) :=
  fun e => Some (h e).

(** [except (PreTrainedModelNotFoundError, OSError) as e] *)
Definition except_not_found_or_OSError {A} (h : exn -> M A) : exn -> option (M A) :=
  fun e =>
    match exn_cls e with
    | PreTrainedModelNotFoundError | OSError => Some (h e)
    | _ => None
    end.

(** [except ValueError as e: ... except Exception as e: ...] *)
Definition except_ValueError_then_Exception {A} (hv hx : exn -> M A)
  : exn -> option (M A) :=
  fun e =>
    match exn_cls e with
    | ValueError => Some (hv e)
    | _ => Some (hx e)
    end.

(** *** Early [return]

    Inside a method body a statement either falls through to the next one
    or returns from the method.  A [return] is not an exception: it passes
    through [try_except] untouched. *)
Inductive flow (R A : Type) :=
| Next (a : A)
| Return (r : R).
Arguments Next {R A} a.
Arguments Return {R A} r.

Definition F (R A : Type) : Type := M (flow R A).

Definition stmt {R A} (m : M A) : F R A := a <- m ;; ret (Next a).

Definition return_ {R A} (r : R) : F R A := ret (Return r).

Definition bindF {R A B} (m : F R A) (k : A -> F R B) : F R B :=
  x <- m ;;
  match x with
  | Next a => k a
  | Return r => ret (Return r)
  end.

Notation "x <~ m ;; k" := (bindF m (fun x => k))
  (at level 61, m at next level, right associativity) : node_scope.
Notation "m ;;~ k" := (bindF m (fun _ => k))
  (at level 61, right associativity) : node_scope.

(** A method whose body ends with an explicit [return]. *)
Definition def {R} (body : F R R) : M R :=
  x <- body ;;
  match x with
  | Next r => ret r
  | Return r => ret r
  end.

(** A method that falls off its end returns [None]. *)
Definition def_or_None {R} (body : F R unit) : M (option R) :=
  x <- body ;;
  match x with
  | Next _ => ret None
  | Return r => ret (Some r)
  end.

(** ** Strings *)

Definition newline : string := String (ascii_of_nat 10) EmptyString.

(** [str(n)] for a non-negative integer. *)
Definition str_of_nat (n : nat) : string := NilEmpty.string_of_uint (Nat.to_uint n).

Fixpoint drop (k : nat) (s : string) : string :=
  match k, s with
  | S k', String _ s' => drop k' s'
  | _, _ => s
  end.

(** [find sep s]: the text before the first occurrence of [sep] in [s] and
    the text after it; what [str.partition] computes. *)
Fixpoint find (sep s : string) : option (string * string) :=
  if String.prefix sep s then Some (EmptyString, drop (String.length sep) s)
  else
    match s with
    | EmptyString => None
    | String ch s' =>
        match find sep s' with
        | Some (p, r) => Some (String ch p, r)
        | None => None
        end
    end.

Fixpoint split_fuel (fuel : nat) (sep s : string) : list string :=
  match fuel with
  | O => [s]
  | S fuel' =>
      match find sep s with
      | None => [s]
      | Some (p, r) => p :: split_fuel fuel' sep r
      end
  end.

(** [s.split(sep)] for a non-empty separator: cut at each occurrence, found
    from left to right without overlap.  The text after an occurrence is
    strictly shorter than the text searched, so [length s] rounds suffice. *)
Definition split (sep s : string) : list string :=
  split_fuel (String.length s) sep s.

(** The number of positions of [s] at which [sep] starts. *)
Fixpoint occurrences (sep s : string) : nat :=
  (if String.prefix sep s then 1 else 0) +
  match s with
  | EmptyString => 0
  | String _ s' => occurrences sep s'
  end.

(** ASCII whitespace as [str.isspace] sees it. *)
Definition is_space (ch : ascii) : bool :=
  let k := nat_of_ascii ch in
  ((9 <=? k)%nat && (k <=? 13)%nat) || ((28 <=? k)%nat && (k <=? 32)%nat).

Fixpoint lstrip (s : string) : string :=
  match s with
  | String ch s' => if is_space ch then lstrip s' else s
  | EmptyString => EmptyString
  end.

Fixpoint rstrip (s : string) : string :=
  match s with
  | EmptyString => EmptyString
  | String ch s' =>
      match rstrip s' with
      | EmptyString => if is_space ch then EmptyString else String ch EmptyString
      | r => String ch r
      end
  end.

(** [s.strip()] *)
Definition strip (s : string) : string := rstrip (lstrip s).

(** ** Model loading *)

Definition bf16_label := "bf16 (No Quantization, Highest Quality)".
Definition nf4_label := "nf4 (Fastest, Most Efficient, Lowest Quality)".
Definition fp4_label := "fp4 (Fast, Very Efficient, Low Quality)".
Definition int8_label := "int8 (Medium Speed, Efficient, Medium Quality)".

Definition quantization_map : list (string * (string * option Z)) :=
  [ (bf16_label, ("bf16", None));
    (nf4_label, ("bitsandbytes", Some 4%Z));
    (fp4_label, ("bitsandbytes", Some 4%Z));
    (int8_label, ("bitsandbytes", Some 8%Z)) ].

Fixpoint dict_lookup {V} (d : list (string * V)) (key : string) : option V :=
  match d with
  | [] => None
  | (k, v) :: d' => if String.eqb k key then Some v else dict_lookup d' key
  end.

Definition hashable (v : pyval) : bool :=
  match v with
  | PyObject h _ => h
  | _ => true
  end.

(** [quantization_map.get(quantization_type, (None, None))]: the key is
    hashed first; only a string can equal one of the keys. *)
Definition quantization_map_get (key : pyval)
  : outcome (option string * option Z) :=
  if hashable key then
    match key with
    | PyStr label =>
        match dict_lookup quantization_map label with
        | Some (method, bits) => Ret (Some method, bits)
        | None => Ret (None, None)
        end
    | _ => Ret (None, None)
    end
  else Raise (Exn TypeError "unhashable type").

(** [quant_method == name] *)
Definition method_is (quant_method : option string) (name : string) : bool :=
  match quant_method with
  | Some m => String.eqb m name
  | None => false
  end.

Definition lift {A} (o : outcome A) : M A := fun n => (o, n, []).

Definition load_model (c : Collab) (quantization_type cache : pyval)
  : M (option string) :=
  def_or_None (
    try_except (
      qb <~ stmt (lift (quantization_map_get quantization_type)) ;;
      let '(quant_method, bits) := qb in
      (if method_is quant_method "bf16" then
         try_except (
           self <~ stmt get ;;
           m <~ stmt (call (EvModelFromPretrained (model_name self))
                           (model_from_pretrained c (model_name self))) ;;
           stmt (modify (set_model (Some m))) ;;~
           stmt (modify (set_quantized false)))
         (except_not_found_or_OSError (fun e =>
           self <~ stmt get ;;
           return_ ("Error loading model '" +++ model_name self +++
                    "'. It might not exist or there was an OSError: " +++
                    exn_msg e)))
       else if method_is quant_method "bitsandbytes" then
         self <~ stmt get ;;
         m <~ stmt (call (EvQuantizeModel (model_name self) (device self) cache bits)
                         (quantize_model c (model_name self) (device self) cache bits)) ;;
         stmt (modify (set_model m)) ;;~
         stmt (modify (set_quantized true))
       else
         return_ "Invalid quantization type.") ;;~
      self <~ stmt get ;;
      match model self with
      | None => return_ "Failed to load model."
      | Some _ =>
          try_except (
            t <~ stmt (call (EvTokenizerFromPretrained (model_name self))
                            (tokenizer_from_pretrained c (model_name self))) ;;
            stmt (modify (set_tokenizer (Some t))))
          (except_Exception (fun e =>
            return_ ("Error loading tokenizer: " +++ exn_msg e))) ;;~
          self <~ stmt get ;;
          match model self with
          | Some m => stmt (call (EvModelEval m) (model_eval c m))
          | None =>
              stmt (raise (Exn AttributeError
                             "'NoneType' object has no attribute 'eval'"))
          end
      end)
    (except_Exception (fun e =>
      return_ ("An unexpected error occurred while loading the model: " +++
               exn_msg e)))).

(** ** Inference *)

(** [img.shape[i]] *)
Definition shape_at (img : tensor) (i : nat) : outcome nat :=
  match nth_error (shape img) i with
  | Some d => Ret d
  | None => Raise (Exn IndexError "tuple index out of range")
  end.

(** [l[i]] on a list *)
Definition list_index {A} (l : list A) (i : nat) : outcome A :=
  match nth_error l i with
  | Some a => Ret a
  | None => Raise (Exn IndexError "list index out of range")
  end.

Fixpoint chunks (k size : nat) (l : list Byte.byte) : list (list Byte.byte) :=
  match k with
  | O => []
  | S k' => firstn size l :: chunks k' size (skipn size l)
  end.

(** [iter(image)]: the sub-tensors along the first axis; a tensor without
    axes cannot be iterated. *)
Definition iterate (t : tensor) : outcome (list tensor) :=
  match shape t with
  | [] => Raise (Exn TypeError "iteration over a 0-d tensor")
  | d :: rest =>
      Ret (map (Tensor rest) (chunks d (length (storage t) / d) (storage t)))
  end.

(** Reading an attribute of [self.model] or [self.tokenizer] when the field
    holds [None]. *)
Definition the {A} (field : option A) (attr : string) : M A :=
  match field with
  | Some a => ret a
  | None =>
      raise (Exn AttributeError
               ("'NoneType' object has no attribute '" +++ attr +++ "'"))
  end.

(** One round of the loop over the image batch (the [try] statement of its
    body): the channel test comes first, the dimension test second. *)
Definition convert_image (c : Collab) (img : tensor) (pil_images : list PILImage)
  : F string (list PILImage) :=
  try_except (
    ch <~ stmt (lift (shape_at img 2)) ;;
    (if negb ((ch =? 1)%nat || (ch =? 3)%nat) then
       stmt (raise (Exn ValueError
                      ("Expected image tensor to have 1 or 3 channels, but got " +++
                       str_of_nat ch)))
     else stmt (ret tt)) ;;~
    (if negb (length (shape img) =? 3)%nat then
       stmt (raise (Exn ValueError
                      ("Expected image tensor to have 3 dimensions (C, H, W), but got " +++
                       str_of_nat (length (shape img)))))
     else stmt (ret tt)) ;;~
    pil_image <~ stmt (call (EvToPILImage img) (to_pil_image c img)) ;;
    stmt (ret (pil_images ++ [pil_image])))
  (except_ValueError_then_Exception
     (fun e => return_ ("Image processing error: " +++ exn_msg e))
     (fun e => return_ ("Error converting image tensor to PIL Image: " +++ exn_msg e))).

(** [for img in image: ...] over the elements still to come. *)
Fixpoint convert_images (c : Collab) (imgs : list tensor) (pil_images : list PILImage)
  : F string (list PILImage) :=
  match imgs with
  | [] => stmt (ret pil_images)
  | img :: rest =>
      pil_images' <~ convert_image c img pil_images ;;
      convert_images c rest pil_images'
  end.

(** [[self.tokenizer(chunk).input_ids for chunk in chunks]] *)
Fixpoint tokenize_chunks (c : Collab) (chunks : list string) : M (list (list Z)) :=
  match chunks with
  | [] => ret []
  | chunk :: rest =>
      self <- get ;;
      tk <- the (tokenizer self) "__call__" ;;
      ids <- call (EvTokenize chunk) (tokenize c tk chunk) ;;
      others <- tokenize_chunks c rest ;;
      ret (ids :: others)
  end.

Definition in_int64 (z : Z) : bool :=
  ((- 2 ^ 63 <=? z) && (z <? 2 ^ 63))%Z.

(** [torch.tensor(ids, dtype=torch.long)]: every id must fit 64 bits. *)
Definition torch_tensor_long (ids : list Z) : outcome (list Z) :=
  if forallb in_int64 ids then Ret ids
  else Raise (Exn RuntimeError "Overflow when unpacking long").

Definition image_marker : string := "<image>".
Definition IMAGE_TOKEN_INDEX : Z := (-200)%Z.

(** The two statements under "Prepare input": tokenize every chunk of the
    rendered text, keep the first two, and put the sentinel between them. *)
Definition encode_prompt (c : Collab) (text : string) : M (list (list Z)) :=
  text_chunks <- tokenize_chunks c (split image_marker text) ;;
  chunk0 <- lift (list_index text_chunks 0) ;;
  chunk1 <- lift (list_index text_chunks 1) ;;
  row <- lift (torch_tensor_long (chunk0 ++ [IMAGE_TOKEN_INDEX] ++ chunk1)) ;;
  ret [row].

(** [bool(v)], as [not self.cache] needs it. *)
Definition truthy (v : pyval) : outcome bool :=
  match v with
  | PyNone => Ret false
  | PyBool b => Ret b
  | PyInt z => Ret (negb (z =? 0)%Z)
  | PyStr s => Ret (negb (String.eqb s EmptyString))
  | PyTensor t =>
      if (fold_right Nat.mul 1 (shape t) =? 1)%nat then
        Ret (existsb (fun b => negb (Byte.eqb b Byte.x00)) (storage t))
      else
        Raise (Exn RuntimeError
                 "Boolean value of Tensor with more than one value is ambiguous")
  | PyObject _ t => Ret t
  end.

(** [self.cache] *)
Definition self_cache : M pyval :=
  self <- get ;;
  match attr_cache self with
  | Some v => ret v
  | None =>
      raise (Exn AttributeError
               "'DolphinVisionNode' object has no attribute 'cache'")
  end.

Definition model_not_loaded_msg :=
  "Model not loaded. Please check the node's configuration and ensure the model is loaded successfully.".

Definition is_absent {A} (o : option A) : bool :=
  match o with None => true | Some _ => false end.

(** The body of the [try] statement of [generate_answer], entered once the
    model and tokenizer are present and the arguments have the right types. *)
Definition describe_images (c : Collab) (image_t : tensor) (prompt_s : string)
  : F string string :=
  imgs <~ stmt (lift (iterate image_t)) ;;
  pil_images <~ convert_images c imgs [] ;;
  self <~ stmt get ;;
  tk <~ stmt (the (tokenizer self) "apply_chat_template") ;;
  let content := image_marker +++ newline +++ prompt_s in
  text <~ stmt (call (EvApplyChatTemplate content)
                     (apply_chat_template c tk content)) ;;
  input_ids <~ stmt (encode_prompt c text) ;;
  image_tensor <~
    try_except (
      self <~ stmt get ;;
      m <~ stmt (the (model self) "process_images") ;;
      stmt (call (EvProcessImages m pil_images)
                 (process_images c m pil_images)))
    (except_Exception (fun e =>
      return_ ("Error processing images with the model: " +++ exn_msg e))) ;;
  self <~ stmt get ;;
  stmt (call (EvIdsToDevice (device self))
             (ids_to_device c (device self) input_ids)) ;;~
  stmt (call (EvFeaturesToDevice (device self))
             (features_to_device c (device self) image_tensor)) ;;~
  output_ids <~
    try_except (
      self <~ stmt get ;;
      m <~ stmt (the (model self) "generate") ;;
      stmt (call (EvGenerate m input_ids)
                 (generate c m input_ids image_tensor 2048%Z)))
    (except_Exception (fun e =>
      return_ ("Error during model generation: " +++ exn_msg e))) ;;
  self <~ stmt get ;;
  tk <~ stmt (the (tokenizer self) "decode") ;;
  let new_ids := skipn (length (hd [] input_ids)) output_ids in
  decoded <~ stmt (call (EvDecode new_ids) (decode c tk new_ids)) ;;
  let answer := strip decoded in
  cache <~ stmt self_cache ;;
  keep <~ stmt (lift (truthy cache)) ;;
  (if negb keep then
     self <~ stmt get ;;
     stmt (call (EvUnloadModel (model self)) (unload_model c (model self))) ;;~
     stmt (modify (set_quantized false))
   else stmt (ret tt)) ;;~
  return_ answer.

Definition image_type_msg := "Invalid input: 'image' must be a PyTorch tensor.".
Definition prompt_type_msg := "Invalid input: 'prompt' must be a string.".

Definition generate_answer (c : Collab) (image prompt : pyval) (kw : kwargs)
  : M string :=
  load_model c (kwargs_get kw "quantization_type" (PyStr bf16_label))
               (kwargs_get kw "cache" (PyBool false)) ;;;
  def (
    self <~ stmt get ;;
    if is_absent (model self) || is_absent (tokenizer self) then
      return_ model_not_loaded_msg
    else
      match image with
      | PyTensor image_t =>
          match prompt with
          | PyStr prompt_s =>
              try_except (describe_images c image_t prompt_s)
                (except_Exception (fun e =>
                   return_ ("An unexpected error occurred: " +++ exn_msg e)))
          | _ => return_ prompt_type_msg
          end
      | _ => return_ image_type_msg
      end).

(** ** Unloading *)

(** [if self.model: unload_model(self.model)]: a model object is truthy,
    [None] is not.  No field is assigned. *)
Definition unload (c : Collab) : M unit :=
  self <- get ;;
  match model self with
  | Some _ => call (EvUnloadModel (model self)) (unload_model c (model self))
  | None => ret tt
  end.

(** ** Change detection *)


Section ChangeDetection.

(** Python's [hash] on a pair of a [bytes] object and a hashable value,
    for the hash seed of the running process. *)
Variable py_hash : list Byte.byte -> pyval -> Z.


End ChangeDetection.

(** ** Predicates used in the statements *)

(** An id a tokenizer hands out: a vocabulary index, hence non-negative,
    and small enough for a 64-bit tensor. *)
Definition token_id (z : Z) : Prop := (0 <= z < 2 ^ 63)%Z.

(** The tokenizer answers on every chunk of text, with vocabulary ids. *)
Definition tokenizer_total (c : Collab) (tk : Tokenizer) : Prop :=
  forall chunk, exists ids, tokenize c tk chunk = Ret ids /\ Forall token_id ids.

Definition recognized_label (label : string) : bool :=
  existsb (String.eqb label) [bf16_label; nf4_label; fp4_label; int8_label].

Definition is_tensor (v : pyval) : bool :=
  match v with PyTensor _ => true | _ => false end.

Definition is_str (v : pyval) : bool :=
  match v with PyStr _ => true | _ => false end.

Definition is_unload (ev : event) : bool :=
  match ev with EvUnloadModel _ => true | _ => false end.

Definition is_decode (ev : event) : bool :=
  match ev with EvDecode _ => true | _ => false end.

Definition is_to_pil (ev : event) : bool :=
  match ev with EvToPILImage _ => true | _ => false end.

Definition is_tokenize (ev : event) : bool :=
  match ev with EvTokenize _ => true | _ => false end.

(** The events [load_model] can produce. *)
Definition is_load_event (ev : event) : bool :=
  match ev with
  | EvModelFromPretrained _ | EvQuantizeModel _ _ _ _
  | EvTokenizerFromPretrained _ | EvModelEval _ => true
  | _ => false
  end.

Definition is_model_load (ev : event) : bool :=
  match ev with
  | EvModelFromPretrained _ | EvQuantizeModel _ _ _ _ => true
  | _ => false
  end.

Definition is_tokenizer_load (ev : event) : bool :=
  match ev with EvTokenizerFromPretrained _ => true | _ => false end.

(** What "the manager reverts to Unloaded" asks of one load: afterwards the
    model reference is absent. *)
Definition reverts_to_unloaded (c : Collab) (label : string) (cache : pyval)
           (n : DolphinVisionNode) : Prop :=
  model (final (load_model c (PyStr label) cache n)) = None.

(** An element the loop accepts: three axes, the last of size 1 or 3. *)
Definition well_shaped (img : tensor) : bool :=
  (length (shape img) =? 3)%nat &&
  match nth_error (shape img) 2 with
  | Some ch => (ch =? 1)%nat || (ch =? 3)%nat
  | None => false
  end.

Definition cache_attribute_error : exn :=
  Exn AttributeError "'DolphinVisionNode' object has no attribute 'cache'".

(** How the messages built by [generate_answer] itself begin. *)
Definition error_prefixes : list string :=
  [ model_not_loaded_msg;
    "Invalid input: ";
    "Image processing error: ";
    "Error converting image tensor to PIL Image: ";
    "Error processing images with the model: ";
    "Error during model generation: ";
    "An unexpected error occurred: " ].

Definition is_error_message (s : string) : bool :=
  existsb (fun p => String.prefix p s) error_prefixes.

(** The statement that ended a block: a [return] of one of the messages
    above, or an exception; never a fall through. *)
Definition ends_in_error {A} (x : outcome (flow string A)) : Prop :=
  match x with
  | Ret (Return msg) => is_error_message msg = true
  | Ret (Next _) => False
  | Raise _ => True
  end.

(** The units a host can hold: made by [__init__], then used through the
    methods of the class. *)
Inductive reachable : DolphinVisionNode -> Prop :=
| reach_init (cuda_is_available : bool) :
    reachable (init cuda_is_available)
| reach_load_model (c : Collab) (quantization_type cache : pyval) n :
    reachable n ->
    reachable (final (load_model c quantization_type cache n))
| reach_generate_answer (c : Collab) (image prompt : pyval) (kw : kwargs) n :
    reachable n ->
    reachable (final (generate_answer c image prompt kw n))
| reach_unload (c : Collab) n :
    reachable n ->
    reachable (final (unload c n)).

(** ** Concrete collaborators, for running the node *)

Module Scenario.

(** A byte-level tokenizer: one id per character. *)
Definition codes (s : string) : list Z :=
  map (fun a => Z.of_nat (nat_of_ascii a)) (list_ascii_of_string s).

(** A chat template in the ChatML style. *)
Definition chatml (content : string) : string :=
  "<|im_start|>user" +++ newline +++ content +++ "<|im_end|>" +++ newline +++
  "<|im_start|>assistant" +++ newline.

(** Every collaborator succeeds; generation appends six tokens. *)
Definition happy : Collab := {|
  model_from_pretrained := fun _ => Ret 1;
  quantize_model := fun _ _ _ _ => Ret (Some 2);
  tokenizer_from_pretrained := fun _ => Ret 7;
  model_eval := fun _ => Ret tt;
  to_pil_image := fun _ => Ret 0;
  apply_chat_template := fun _ content => Ret (chatml content);
  tokenize := fun _ s => Ret (codes s);
  process_images := fun _ _ => Ret 0;
  ids_to_device := fun _ _ => Ret tt;
  features_to_device := fun _ _ => Ret tt;
  generate := fun _ ids _ _ => Ret (hd [] ids ++ [65; 32; 99; 97; 116; 46]%Z);
  decode := fun _ _ => Ret " A cat. ";
  unload_model := fun _ => Ret tt |}.

(** As [happy], but the tokenizer cannot be resolved. *)
Definition no_tokenizer : Collab := {|
  model_from_pretrained := model_from_pretrained happy;
  quantize_model := quantize_model happy;
  tokenizer_from_pretrained := fun _ => Raise (Exn OSError "tokenizer files not found");
  model_eval := model_eval happy;
  to_pil_image := to_pil_image happy;
  apply_chat_template := apply_chat_template happy;
  tokenize := tokenize happy;
  process_images := process_images happy;
  ids_to_device := ids_to_device happy;
  features_to_device := features_to_device happy;
  generate := generate happy;
  decode := decode happy;
  unload_model := unload_model happy |}.

(** A batch of [k] images of the given element shape. *)
Definition batch (k : nat) (elem_shape : list nat) : pyval :=
  PyTensor (Tensor (k :: elem_shape) []).

Definition prompt_text : pyval := PyStr "Describe the image.".

(** A fresh unit on which code outside the class has set [self.cache]. *)
Definition with_cache_attribute (v : pyval) : DolphinVisionNode :=
  {| model_name := model_name (init false);
     device := device (init false);
     model := None;
     tokenizer := None;
     quantized := false;
     attr_cache := Some v |}.


End Scenario.

(** ** The declared inputs *)

(** What the host is told about one input: a type name or a list of
    choices, and the options given with it. *)
Inductive input_type :=
| TypeName (name : string)
| Choices (options : list string).

Record input_decl := InputDecl {
  in_type : input_type;
  in_options : list (string * pyval)
}.

Record input_types := InputTypes {
  required : list (string * input_decl);
  optional : list (string * input_decl)
}.

Definition INPUT_TYPES : input_types :=
  {| required :=
       [ ("image", InputDecl (TypeName "IMAGE") []);
         ("prompt", InputDecl (TypeName "STRING") [("multiline", PyBool true)]) ];
     optional :=
       [ ("cache", InputDecl (TypeName "BOOLEAN") [("default", PyBool false)]);
         ("quantization_type",
          InputDecl
            (Choices
               [ "bf16 (No Quantization, Highest Quality)";
                 "nf4 (Fastest, Most Efficient, Lowest Quality)";
                 "fp4 (Fast, Very Efficient, Low Quality)";
                 "int8 (Medium Speed, Efficient, Medium Quality)" ])
            [("default", PyStr "bf16 (No Quantization, Highest Quality)")]) ] |}.

(** The labels the host lets the user pick. *)
Definition offered_labels (it : input_types) : list string :=
  match dict_lookup (optional it) "quantization_type" with
  | Some (InputDecl (Choices labels) _) => labels
  | _ => []
  end.

(** The keyword arguments a host passes when the user leaves every
    optional input at its declared default. *)
Definition declared_defaults (it : input_types) : kwargs :=
  flat_map
    (fun entry =>
       match dict_lookup (in_options (snd entry)) "default" with
       | Some v => [(fst entry, v)]
       | None => []
       end)
    (optional it).

(** ** More predicates on events *)

Definition is_chat_template (ev : event) : bool :=
  match ev with EvApplyChatTemplate _ => true | _ => false end.

Definition is_process_images (ev : event) : bool :=
  match ev with EvProcessImages _ _ => true | _ => false end.

Definition is_ids_to_device (ev : event) : bool :=
  match ev with EvIdsToDevice _ => true | _ => false end.

Definition is_features_to_device (ev : event) : bool :=
  match ev with EvFeaturesToDevice _ => true | _ => false end.

Definition is_generate (ev : event) : bool :=
  match ev with EvGenerate _ _ => true | _ => false end.

(** What [generate_answer] answers once the [try] block has ended: the
    value returned in the block, or the message of the outer handler. *)
Definition answer_of (x : outcome (flow string string)) : string :=
  match x with
  | Ret (Next a) => a
  | Ret (Return a) => a
  | Raise e => "An unexpected error occurred: " +++ exn_msg e
  end.

(** ** More concrete collaborators *)

Module Cases.

(** Collaborators that answer the same way whatever they are asked. *)
Definition collab_of (provider : outcome Model)
           (quantizer : outcome (option Model))
           (tokenizers : outcome Tokenizer) (eval : outcome unit)
           (converter : outcome PILImage) (template : string -> outcome string)
           (images : outcome ImageFeatures)
           (generation : list (list Z) -> outcome (list Z)) : Collab :=
  {| model_from_pretrained := fun _ => provider;
     quantize_model := fun _ _ _ _ => quantizer;
     tokenizer_from_pretrained := fun _ => tokenizers;
     model_eval := fun _ => eval;
     to_pil_image := fun _ => converter;
     apply_chat_template := fun _ => template;
     tokenize := fun _ s => Ret (Scenario.codes s);
     process_images := fun _ _ => images;
     ids_to_device := fun _ _ => Ret tt;
     features_to_device := fun _ _ => Ret tt;
     generate := fun _ ids _ _ => generation ids;
     decode := fun _ _ => Ret " A cat. ";
     unload_model := fun _ => Ret tt |}.

Definition echo (ids : list (list Z)) : outcome (list Z) :=
  Ret (hd [] ids).

Definition oom : exn := Exn RuntimeError "CUDA out of memory".

Definition all_fine : Collab :=
  collab_of (Ret 1) (Ret (Some 2)) (Ret 7) (Ret tt) (Ret 0)
            (fun content => Ret (Scenario.chatml content)) (Ret 0) echo.

Definition missing_model : Collab :=
  collab_of (Raise (Exn OSError "no such repository")) (Raise oom) (Ret 7)
            (Ret tt) (Ret 0) (fun content => Ret (Scenario.chatml content))
            (Ret 0) echo.

Definition null_quantizer : Collab :=
  collab_of (Ret 1) (Ret None) (Ret 7) (Ret tt) (Ret 0)
            (fun content => Ret (Scenario.chatml content)) (Ret 0) echo.


Definition bad_converter : Collab :=
  collab_of (Ret 1) (Ret (Some 2)) (Ret 7) (Ret tt)
            (Raise (Exn ValueError "pic should be Tensor or ndarray"))
            (fun content => Ret (Scenario.chatml content)) (Ret 0) echo.

Definition markerless_template : Collab :=
  collab_of (Ret 1) (Ret (Some 2)) (Ret 7) (Ret tt) (Ret 0)
            (fun _ => Ret "USER: describe ASSISTANT:") (Ret 0) echo.

Definition bad_images : Collab :=
  collab_of (Ret 1) (Ret (Some 2)) (Ret 7) (Ret tt) (Ret 0)
            (fun content => Ret (Scenario.chatml content)) (Raise oom) echo.

Definition bad_generation : Collab :=
  collab_of (Ret 1) (Ret (Some 2)) (Ret 7) (Ret tt) (Ret 0)
            (fun content => Ret (Scenario.chatml content)) (Ret 0)
            (fun _ => Raise oom).

(** A unit holding model 1 and tokenizer 7. *)
Definition loaded : DolphinVisionNode :=
  set_tokenizer (Some 7) (set_model (Some 1) (init false)).

End Cases.

(** * Properties *)

(** ** Splitting a string at a separator *)

Section Split.

Variable sep_head : ascii.
Variable sep_tail : string.
Let sep := String sep_head sep_tail.

Lemma prefix_drop (a s : string) :
  String.prefix a s = true -> s = a +++ drop (String.length a) s.
Proof.
  revert s; induction a as [|x a IH]; intros s H.
  - reflexivity.
  - destruct s as [|y s]; simpl in H; [discriminate|].
    destruct (ascii_dec x y) as [->|]; [|discriminate].
    simpl. f_equal. now apply IH.
Qed.

Lemma drop_length (k : nat) (s : string) :
  String.length (drop k s) = String.length s - k.
Proof.
  revert s; induction k as [|k IH]; intros [|y s]; simpl; auto.
Qed.

Lemma prefix_length (a s : string) :
  String.prefix a s = true -> String.length a <= String.length s.
Proof.
  revert s; induction a as [|x a IH]; intros s H; simpl; [lia|].
  destruct s as [|y s]; simpl in H; [discriminate|].
  destruct (ascii_dec x y); [|discriminate].
  apply IH in H. simpl. lia.
Qed.

(** [find] cuts the text at an occurrence of the separator. *)
Lemma find_Some (s p r : string) :
  find sep s = Some (p, r) -> s = p +++ sep +++ r.
Proof.
  revert p r; induction s as [|ch s IH]; intros p r H.
  - simpl in H. discriminate.
  - cbn [find] in H.
    destruct (String.prefix sep (String ch s)) eqn:E.
    + injection H as <- <-. now apply prefix_drop in E.
    + destruct (find sep s) as [[p' r']|] eqn:F; [|discriminate].
      injection H as <- <-. simpl. f_equal. now apply IH.
Qed.

(** ... and that occurrence is the first one: the separator starts at no
    position inside the text before the cut. *)
Lemma find_first (s p r : string) :
  find sep s = Some (p, r) ->
  forall k, k < String.length p -> String.prefix sep (drop k s) = false.
Proof.
  revert p r; induction s as [|ch s IH]; intros p r H k Hk.
  - simpl in H. discriminate.
  - cbn [find] in H.
    destruct (String.prefix sep (String ch s)) eqn:E.
    + injection H as <- <-. simpl in Hk. lia.
    + destruct (find sep s) as [[p' r']|] eqn:F; [|discriminate].
      injection H as <- <-.
      destruct k as [|k]; [exact E|].
      simpl in Hk. cbn [drop]. apply (IH _ _ eq_refl). lia.
Qed.

Lemma find_shorter (s p r : string) :
  find sep s = Some (p, r) -> String.length r < String.length s.
Proof.
  revert p r; induction s as [|ch s IH]; intros p r H.
  - simpl in H. discriminate.
  - cbn [find] in H.
    destruct (String.prefix sep (String ch s)) eqn:E.
    + injection H as <- <-. rewrite drop_length.
      apply prefix_length in E. unfold sep in *. simpl in *. lia.
    + destruct (find sep s) as [[p' r']|] eqn:F; [|discriminate].
      injection H as <- <-. specialize (IH _ _ eq_refl). simpl. lia.
Qed.

Lemma find_None (s : string) :
  find sep s = None <-> occurrences sep s = 0.
Proof.
  induction s as [|ch s IH].
  - simpl. tauto.
  - cbn [find occurrences].
    destruct (String.prefix sep (String ch s)).
    + split; [discriminate | simpl; discriminate].
    + destruct (find sep s) as [[p r]|].
      * split; [discriminate|]. simpl. intros H. apply IH in H. discriminate.
      * simpl. split; intros _; [now apply IH | reflexivity].
Qed.

(** Any fuel that covers the length gives the same chunks. *)
Lemma split_fuel_stable (f1 f2 : nat) (s : string) :
  String.length s <= f1 -> String.length s <= f2 ->
  split_fuel f1 sep s = split_fuel f2 sep s.
Proof.
  revert f2 s; induction f1 as [|f1 IH]; intros f2 s H1 H2.
  - destruct s; [|simpl in H1; lia].
    destruct f2; reflexivity.
  - destruct f2 as [|f2].
    + destruct s; [reflexivity | simpl in H2; lia].
    + simpl. destruct (find sep s) as [[p r]|] eqn:F; [|reflexivity].
      f_equal. apply find_shorter in F. apply IH; lia.
Qed.

(** The recursion equation of [split]. *)
Lemma split_eq (s : string) :
  split sep s =
  match find sep s with
  | None => [s]
  | Some (p, r) => p :: split sep r
  end.
Proof.
  unfold split. destruct s as [|ch s]; [reflexivity|].
  cbn [String.length split_fuel].
  destruct (find sep (String ch s)) as [[p r]|] eqn:F; [|reflexivity].
  f_equal. apply find_shorter in F. simpl in F.
  apply split_fuel_stable; lia.
Qed.

(** Joining the chunks with the separator gives the text back. *)
Lemma split_join (s : string) :
  String.concat sep (split sep s) = s.
Proof.
  remember (String.length s) as k eqn:Hk.
  revert s Hk; induction k as [k IH] using lt_wf_ind; intros s ->.
  rewrite split_eq. destruct (find sep s) as [[p r]|] eqn:F; [|reflexivity].
  pose proof (find_shorter _ _ _ F) as Hlt.
  pose proof (find_Some _ _ _ F) as ->.
  specialize (IH _ Hlt r eq_refl).
  destruct (split sep r) as [|x l] eqn:E.
  - rewrite split_eq in E. destruct (find sep r) as [[? ?]|]; discriminate.
  - change (String.concat sep (p :: x :: l))
      with (p +++ sep +++ String.concat sep (x :: l)).
    now rewrite IH.
Qed.

End Split.

(** ** The image marker *)

(** The marker does not overlap itself, so the text after a cut holds one
    occurrence less. *)
Lemma find_marker_occurrences (s p r : string) :
  find image_marker s = Some (p, r) ->
  occurrences image_marker s = S (occurrences image_marker r).
Proof.
  revert p r; induction s as [|ch s IH]; intros p r H.
  - simpl in H. discriminate.
  - cbn [find] in H. cbn [occurrences].
    destruct (String.prefix image_marker (String ch s)) eqn:E.
    + pose proof (prefix_drop _ _ E) as D.
      remember (drop (String.length image_marker) (String ch s)) as r0 eqn:R0.
      injection H as _ <-. clear R0 E IH.
      injection D as _ ->. reflexivity.
    + destruct (find image_marker s) as [[p' r']|] eqn:F; [|discriminate].
      injection H as <- <-. simpl. exact (IH p' r' eq_refl).
Qed.

Lemma one_marker (text : string) :
  occurrences image_marker text = 1 ->
  exists pre suf,
    text = pre +++ image_marker +++ suf /\
    split image_marker text = [pre; suf].
Proof.
  intros H.
  destruct (find image_marker text) as [[pre suf]|] eqn:F.
  - exists pre, suf. split; [now apply find_Some|].
    unfold image_marker in *.
    rewrite split_eq, F. f_equal.
    apply find_marker_occurrences in F.
    assert (Z0 : occurrences "<image>" suf = 0) by (unfold image_marker in F; lia).
    apply find_None in Z0. now rewrite split_eq, Z0.
  - apply find_None in F. unfold image_marker in *. lia.
Qed.

Lemma two_markers (text : string) :
  2 <= occurrences image_marker text ->
  exists pre mid tail,
    find image_marker text = Some (pre, mid +++ image_marker +++ tail) /\
    find image_marker (mid +++ image_marker +++ tail) = Some (mid, tail) /\
    split image_marker text = pre :: mid :: split image_marker tail.
Proof.
  intros H.
  destruct (find image_marker text) as [[pre rest]|] eqn:F.
  - pose proof (find_marker_occurrences _ _ _ F) as O.
    destruct (find image_marker rest) as [[mid tail]|] eqn:G.
    + exists pre, mid, tail.
      pose proof G as R. apply find_Some in R. unfold image_marker in *.
      rewrite <- R. repeat split; auto.
      rewrite split_eq, F. f_equal. now rewrite split_eq, G.
    + apply find_None in G. unfold image_marker in *. lia.
  - apply find_None in F. unfold image_marker in *. lia.
Qed.

(** ** Encoding the prompt *)

Lemma token_id_in_int64 (ids : list Z) :
  Forall token_id ids -> forallb in_int64 ids = true.
Proof.
  induction 1 as [|z ids Hz _ IH]; [reflexivity|].
  simpl. rewrite IH, andb_true_r.
  unfold token_id in Hz. unfold in_int64.
  apply andb_true_intro; split; [apply Z.leb_le | apply Z.ltb_lt]; lia.
Qed.

Lemma token_id_not_sentinel (ids : list Z) :
  Forall token_id ids -> count_occ Z.eq_dec ids IMAGE_TOKEN_INDEX = 0.
Proof.
  induction 1 as [|z ids Hz _ IH]; [reflexivity|].
  simpl. destruct (Z.eq_dec z IMAGE_TOKEN_INDEX) as [->|]; [|exact IH].
  unfold token_id, IMAGE_TOKEN_INDEX in Hz. lia.
Qed.

(** With a total tokenizer the comprehension tokenizes every chunk, in
    order, and leaves the node as it was. *)
Lemma tokenize_chunks_run (c : Collab) (tk : Tokenizer) (n : DolphinVisionNode)
      (chunks : list string) :
  tokenizer n = Some tk ->
  tokenizer_total c tk ->
  exists idss,
    tokenize_chunks c chunks n = (Ret idss, n, map EvTokenize chunks) /\
    Forall2 (fun chunk ids => tokenize c tk chunk = Ret ids /\ Forall token_id ids)
            chunks idss.
Proof.
  intros Htk Htot. induction chunks as [|chunk rest IH].
  - exists []. split; [reflexivity | constructor].
  - destruct IH as (idss & R & F2).
    destruct (Htot chunk) as (ids & E & V).
    exists (ids :: idss). split; [|constructor; auto].
    cbn [tokenize_chunks]. unfold bind, get, the, call, ret.
    rewrite Htk, E, R. cbn. now rewrite app_nil_r.
Qed.

(** The sequence built from two tokenized chunks. *)
Lemma splice_sentinel (ids0 ids1 : list Z) :
  Forall token_id ids0 -> Forall token_id ids1 ->
  torch_tensor_long (ids0 ++ [IMAGE_TOKEN_INDEX] ++ ids1)
    = Ret (ids0 ++ [IMAGE_TOKEN_INDEX] ++ ids1) /\
  count_occ Z.eq_dec (ids0 ++ [IMAGE_TOKEN_INDEX] ++ ids1) IMAGE_TOKEN_INDEX = 1 /\
  nth_error (ids0 ++ [IMAGE_TOKEN_INDEX] ++ ids1) (length ids0)
    = Some IMAGE_TOKEN_INDEX.
Proof.
  intros V0 V1. repeat split.
  - unfold torch_tensor_long.
    rewrite !forallb_app, (token_id_in_int64 _ V0), (token_id_in_int64 _ V1).
    reflexivity.
  - rewrite !count_occ_app, (token_id_not_sentinel _ V0), (token_id_not_sentinel _ V1).
    reflexivity.
  - rewrite nth_error_app2 by lia. now rewrite Nat.sub_diag.
Qed.

(** Whatever the number of chunks beyond two, the first two make the row. *)
Lemma encode_prompt_two_chunks (c : Collab) (tk : Tokenizer) (n : DolphinVisionNode)
      (text pre mid : string) (others : list string) :
  tokenizer n = Some tk ->
  tokenizer_total c tk ->
  split image_marker text = pre :: mid :: others ->
  exists ids0 ids1,
    tokenize c tk pre = Ret ids0 /\ Forall token_id ids0 /\
    tokenize c tk mid = Ret ids1 /\ Forall token_id ids1 /\
    encode_prompt c text n =
      (Ret [ids0 ++ [IMAGE_TOKEN_INDEX] ++ ids1], n,
       map EvTokenize (pre :: mid :: others)).
Proof.
  intros Htk Htot Hs.
  destruct (tokenize_chunks_run c tk n (pre :: mid :: others) Htk Htot)
    as (idss & R & F2).
  inversion F2 as [|? ids0 ? rest0 [E0 V0] F2' ]; subst.
  inversion F2' as [|? ids1 ? rest1 [E1 V1] _ ]; subst.
  exists ids0, ids1. repeat (split; [assumption|]).
  destruct (splice_sentinel _ _ V0 V1) as (T & _ & _).
  unfold encode_prompt, bind. rewrite Hs, R.
  unfold lift, list_index. cbn [nth_error]. rewrite T.
  unfold ret. cbn. now rewrite !app_nil_r.
Qed.

Lemma happy_tokenizer_total (tk : Tokenizer) : tokenizer_total Scenario.happy tk.
Proof.
  intros chunk. exists (Scenario.codes chunk). split; [reflexivity|].
  unfold Scenario.codes. apply Forall_forall. intros z Hz.
  apply in_map_iff in Hz. destruct Hz as (a & <- & _).
  pose proof (nat_ascii_bounded a). unfold token_id. lia.
Qed.

(** C5.  When the rendered chat text holds exactly one image marker, the
    encoder returns a batch of one row; the row is the token ids of the text
    before the marker, then the sentinel -200, then the token ids of the text
    after it; the sentinel occurs once, at the index equal to the number of
    prefix tokens.  The tokenizer is assumed to answer on every chunk with
    vocabulary ids. *)
Theorem encode_prompt_single_marker (c : Collab) (tk : Tokenizer)
        (n : DolphinVisionNode) (text : string) :
  tokenizer n = Some tk ->
  tokenizer_total c tk ->
  occurrences image_marker text = 1 ->
  exists pre suf ids0 ids1,
    text = pre +++ image_marker +++ suf /\
    tokenize c tk pre = Ret ids0 /\
    tokenize c tk suf = Ret ids1 /\
    result (encode_prompt c text n) = Ret [ids0 ++ [(-200)%Z] ++ ids1] /\
    final (encode_prompt c text n) = n /\
    count_occ Z.eq_dec (ids0 ++ [(-200)%Z] ++ ids1) (-200)%Z = 1 /\
    nth_error (ids0 ++ [(-200)%Z] ++ ids1) (length ids0) = Some (-200)%Z.
Proof.
  intros Htk Htot H1.
  destruct (one_marker _ H1) as (pre & suf & Htext & Hs).
  destruct (encode_prompt_two_chunks c tk n text pre suf [] Htk Htot Hs)
    as (ids0 & ids1 & E0 & V0 & E1 & V1 & R).
  destruct (splice_sentinel _ _ V0 V1) as (_ & Hc & Hn).
  exists pre, suf, ids0, ids1. rewrite R.
  repeat split; auto.
Qed.

Lemma encode_prompt_single_marker_witness :
  exists pre suf ids0 ids1,
    "ask<image>me" = pre +++ image_marker +++ suf /\
    tokenize Scenario.happy 7 pre = Ret ids0 /\
    tokenize Scenario.happy 7 suf = Ret ids1 /\
    result (encode_prompt Scenario.happy "ask<image>me"
              (set_tokenizer (Some 7) (init false)))
      = Ret [ids0 ++ [(-200)%Z] ++ ids1] /\
    final (encode_prompt Scenario.happy "ask<image>me"
             (set_tokenizer (Some 7) (init false)))
      = set_tokenizer (Some 7) (init false) /\
    count_occ Z.eq_dec (ids0 ++ [(-200)%Z] ++ ids1) (-200)%Z = 1 /\
    nth_error (ids0 ++ [(-200)%Z] ++ ids1) (length ids0) = Some (-200)%Z.
Proof.
  apply (encode_prompt_single_marker Scenario.happy 7
           (set_tokenizer (Some 7) (init false)) "ask<image>me").
  - reflexivity.
  - apply happy_tokenizer_total.
  - reflexivity.
Defined.

(** C9.  When the rendered chat text holds two or more image markers, the
    encoder still succeeds: the row is the token ids of the text before the
    first marker, one sentinel -200, and the token ids of the text between
    the first and the second marker.  Everything from the second marker on
    ([tail]) is tokenized but appears nowhere in the row, and no error is
    raised.  The tokenizer is assumed to answer on every chunk with
    vocabulary ids. *)
Theorem encode_prompt_extra_markers (c : Collab) (tk : Tokenizer)
        (n : DolphinVisionNode) (text : string) :
  tokenizer n = Some tk ->
  tokenizer_total c tk ->
  2 <= occurrences image_marker text ->
  exists pre mid tail ids0 ids1,
    text = pre +++ image_marker +++ mid +++ image_marker +++ tail /\
    find image_marker text = Some (pre, mid +++ image_marker +++ tail) /\
    find image_marker (mid +++ image_marker +++ tail) = Some (mid, tail) /\
    tokenize c tk pre = Ret ids0 /\
    tokenize c tk mid = Ret ids1 /\
    result (encode_prompt c text n) = Ret [ids0 ++ [(-200)%Z] ++ ids1] /\
    final (encode_prompt c text n) = n /\
    count_occ Z.eq_dec (ids0 ++ [(-200)%Z] ++ ids1) (-200)%Z = 1.
Proof.
  intros Htk Htot H2.
  destruct (two_markers _ H2) as (pre & mid & tail & F & G & Hs).
  destruct (encode_prompt_two_chunks c tk n text pre mid _ Htk Htot Hs)
    as (ids0 & ids1 & E0 & V0 & E1 & V1 & R).
  destruct (splice_sentinel _ _ V0 V1) as (_ & Hc & _).
  exists pre, mid, tail, ids0, ids1. rewrite R.
  repeat split; auto.
  pose proof F as T. apply find_Some in T. exact T.
Qed.

Lemma encode_prompt_extra_markers_witness :
  exists pre mid tail ids0 ids1,
    "a<image>b<image>c<image>d"
      = pre +++ image_marker +++ mid +++ image_marker +++ tail /\
    find image_marker "a<image>b<image>c<image>d"
      = Some (pre, mid +++ image_marker +++ tail) /\
    find image_marker (mid +++ image_marker +++ tail) = Some (mid, tail) /\
    tokenize Scenario.happy 7 pre = Ret ids0 /\
    tokenize Scenario.happy 7 mid = Ret ids1 /\
    result (encode_prompt Scenario.happy "a<image>b<image>c<image>d"
              (set_tokenizer (Some 7) (init false)))
      = Ret [ids0 ++ [(-200)%Z] ++ ids1] /\
    final (encode_prompt Scenario.happy "a<image>b<image>c<image>d"
             (set_tokenizer (Some 7) (init false)))
      = set_tokenizer (Some 7) (init false) /\
    count_occ Z.eq_dec (ids0 ++ [(-200)%Z] ++ ids1) (-200)%Z = 1.
Proof.
  apply (encode_prompt_extra_markers Scenario.happy 7
           (set_tokenizer (Some 7) (init false)) "a<image>b<image>c<image>d").
  - reflexivity.
  - apply happy_tokenizer_total.
  - simpl. lia.
Defined.

(** ** Loading *)

Ltac unfold_monad :=
  cbv beta delta [def def_or_None try_except bindF bind stmt return_ lift call
    get modify ret raise the except_Exception except_not_found_or_OSError
    except_ValueError_then_Exception result final trace] in *.

Ltac case_split :=
  match goal with
  | |- context [match ?x with _ => _ end] =>
      lazymatch x with
      | context [match _ with _ => _ end] => fail
      | _ => destruct x eqn:?
      end
  | |- context [if ?x then _ else _] =>
      lazymatch x with
      | context [match _ with _ => _ end] => fail
      | _ => destruct x eqn:?
      end
  end.

Ltac run_cases := unfold_monad; cbn; repeat (case_split; cbn).

(** [load_model] always returns: a message, or [None] after a complete
    load.  It touches only the model, tokenizer and quantized fields, and
    calls only the model provider, the quantization backend and the
    tokenizer provider. *)
Lemma load_model_run (c : Collab) (quantization_type cache : pyval)
      (n : DolphinVisionNode) :
  exists r n' t,
    load_model c quantization_type cache n = (Ret r, n', t) /\
    model_name n' = model_name n /\
    device n' = device n /\
    attr_cache n' = attr_cache n /\
    forallb is_load_event t = true.
Proof.
  unfold load_model. run_cases; eauto 10.
Qed.

Lemma unrecognized_lookup (label : string) :
  recognized_label label = false -> dict_lookup quantization_map label = None.
Proof.
  unfold recognized_label, quantization_map. cbn [existsb dict_lookup].
  rewrite (String.eqb_sym label bf16_label), (String.eqb_sym label nf4_label),
    (String.eqb_sym label fp4_label), (String.eqb_sym label int8_label).
  intros H. repeat (apply orb_false_elim in H; destruct H as [-> H]). reflexivity.
Qed.

(** On a label outside the catalog, [load_model] does nothing but return
    its message. *)
Lemma load_model_invalid_label (c : Collab) (label : string) (cache : pyval)
      (n : DolphinVisionNode) :
  recognized_label label = false ->
  load_model c (PyStr label) cache n
    = (Ret (Some "Invalid quantization type."), n, []).
Proof.
  intros H. unfold load_model, quantization_map_get. cbn [hashable].
  rewrite (unrecognized_lookup _ H). reflexivity.
Qed.

(** A unit that still holds the model and tokenizer of an earlier request
    goes on with them when the label is invalid: the request below runs the
    whole pipeline on the stale pair. *)
Lemma generate_answer_invalid_label_stale :
  let n := set_tokenizer (Some 7) (set_model (Some 1) (init true)) in
  let run := generate_answer Scenario.happy (Scenario.batch 1 [64; 64; 3])
               Scenario.prompt_text
               [("quantization_type", PyStr "unsupported-label")] n in
  existsb is_decode (trace run) = true /\
  result run <> Ret "Invalid quantization type.".
Proof.
  vm_compute. split; [reflexivity | discriminate].
Qed.

(** C3, counterexample.  Full precision, fresh unit, the model provider
    answers and the tokenizer provider raises: the model reference stays. *)
Lemma load_model_keeps_model_counterexample :
  model_from_pretrained Scenario.no_tokenizer (model_name (init false)) = Ret 1 /\
  tokenizer_from_pretrained Scenario.no_tokenizer (model_name (init false))
    = Raise (Exn OSError "tokenizer files not found") /\
  ~ reverts_to_unloaded Scenario.no_tokenizer bf16_label (PyBool false) (init false).
Proof.
  split; [reflexivity|]. split; [reflexivity|].
  unfold reverts_to_unloaded. vm_compute. discriminate.
Qed.

(** C3, as the code has it.  When the model loads and the tokenizer load
    then raises, [load_model] returns "Error loading tokenizer: <cause>";
    the model field holds the new model, the quantized flag is set as for a
    successful load, and the tokenizer field keeps its previous value.  If
    that previous value was absent, [generate_answer] reports "Model not
    loaded" and runs nothing else. *)
Theorem load_model_tokenizer_failure (c : Collab) (cache : pyval)
        (n : DolphinVisionNode) (e : exn) :
  tokenizer_from_pretrained c (model_name n) = Raise e ->
  (forall m,
      model_from_pretrained c (model_name n) = Ret m ->
      load_model c (PyStr bf16_label) cache n
        = (Ret (Some ("Error loading tokenizer: " +++ exn_msg e)),
           set_quantized false (set_model (Some m) n),
           [EvModelFromPretrained (model_name n);
            EvTokenizerFromPretrained (model_name n)])) /\
  (forall label bits m,
      In (label, ("bitsandbytes", bits)) quantization_map ->
      quantize_model c (model_name n) (device n) cache bits = Ret (Some m) ->
      load_model c (PyStr label) cache n
        = (Ret (Some ("Error loading tokenizer: " +++ exn_msg e)),
           set_quantized true (set_model (Some m) n),
           [EvQuantizeModel (model_name n) (device n) cache bits;
            EvTokenizerFromPretrained (model_name n)])) /\
  (forall image prompt kw r n' t,
      load_model c (kwargs_get kw "quantization_type" (PyStr bf16_label))
                 (kwargs_get kw "cache" (PyBool false)) n = (r, n', t) ->
      tokenizer n' = None ->
      generate_answer c image prompt kw n = (Ret model_not_loaded_msg, n', t)).
Proof.
  intros Htok. split; [|split].
  - intros m Hm. unfold load_model. unfold_monad. cbn. rewrite Hm. cbn.
    rewrite Htok. reflexivity.
  - intros label bits m Hin Hq. unfold load_model.
    cbn in Hin.
    destruct Hin as [H|[H|[H|[H|[]]]]]; try discriminate;
      injection H as <- <-;
      unfold_monad; cbn; rewrite Hq; cbn; rewrite Htok; reflexivity.
  - intros image prompt kw r n' t Hl Hn'.
    destruct (load_model_run c (kwargs_get kw "quantization_type" (PyStr bf16_label))
                (kwargs_get kw "cache" (PyBool false)) n)
      as (r0 & n0 & t0 & E & _).
    rewrite E in Hl. injection Hl as <- <- <-.
    unfold generate_answer, bind at 1. rewrite E.
    unfold_monad. cbn. rewrite Hn', orb_true_r. cbn. now rewrite app_nil_r.
Qed.

Lemma load_model_tokenizer_failure_witness :
  load_model Scenario.no_tokenizer (PyStr bf16_label) (PyBool false) (init false)
    = (Ret (Some "Error loading tokenizer: tokenizer files not found"),
       set_quantized false (set_model (Some 1) (init false)),
       [EvModelFromPretrained (model_name (init false));
        EvTokenizerFromPretrained (model_name (init false))]) /\
  load_model Scenario.no_tokenizer (PyStr int8_label) (PyBool false) (init false)
    = (Ret (Some "Error loading tokenizer: tokenizer files not found"),
       set_quantized true (set_model (Some 2) (init false)),
       [EvQuantizeModel (model_name (init false)) "cpu" (PyBool false) (Some 8%Z);
        EvTokenizerFromPretrained (model_name (init false))]) /\
  generate_answer Scenario.no_tokenizer (Scenario.batch 1 [64; 64; 3])
    Scenario.prompt_text [] (init false)
    = (Ret model_not_loaded_msg,
       set_quantized false (set_model (Some 1) (init false)),
       [EvModelFromPretrained (model_name (init false));
        EvTokenizerFromPretrained (model_name (init false))]).
Proof.
  destruct (load_model_tokenizer_failure Scenario.no_tokenizer (PyBool false)
              (init false) (Exn OSError "tokenizer files not found") eq_refl)
    as (Hbf & Hbnb & Hgen).
  split; [|split].
  - exact (Hbf 1 eq_refl).
  - apply (Hbnb int8_label (Some 8%Z) 2); [|reflexivity].
    right; right; right; left; reflexivity.
  - apply (Hgen (Scenario.batch 1 [64; 64; 3]) Scenario.prompt_text []
             (Ret (Some "Error loading tokenizer: tokenizer files not found")));
      reflexivity.
Defined.

(** ** The entry point *)

(** What [generate_answer] does after the load step, for a request whose
    image is not a tensor or whose prompt is not a string. *)
Lemma generate_answer_type_checks (c : Collab) (image prompt : pyval)
      (kw : kwargs) (n : DolphinVisionNode) :
  is_tensor image && is_str prompt = false ->
  exists r n1 t1,
    load_model c (kwargs_get kw "quantization_type" (PyStr bf16_label))
               (kwargs_get kw "cache" (PyBool false)) n = (Ret r, n1, t1) /\
    generate_answer c image prompt kw n
      = (Ret (if is_absent (model n1) || is_absent (tokenizer n1)
              then model_not_loaded_msg
              else if is_tensor image then prompt_type_msg else image_type_msg),
         n1, t1).
Proof.
  intros Hty.
  destruct (load_model_run c (kwargs_get kw "quantization_type" (PyStr bf16_label))
              (kwargs_get kw "cache" (PyBool false)) n)
    as (r & n1 & t1 & E & _).
  exists r, n1, t1. split; [exact E|].
  unfold generate_answer, bind at 1. rewrite E.
  unfold def, bindF, bind, stmt, get, return_, ret. cbn.
  destruct (is_absent (model n1) || is_absent (tokenizer n1)); cbn;
    [now rewrite app_nil_r|].
  destruct image; cbn; try (now rewrite app_nil_r).
  destruct prompt; cbn; try (now rewrite app_nil_r).
  discriminate.
Qed.



(** The load step never raises either, so nothing can skip the checks that
    follow it. *)
Lemma load_model_never_raises (c : Collab) (quantization_type cache : pyval)
      (n : DolphinVisionNode) :
  exists r, result (load_model c quantization_type cache n) = Ret r.
Proof.
  destruct (load_model_run c quantization_type cache n) as (r & n' & t & E & _).
  exists r. now rewrite E.
Qed.

(** A unit that starts without model and tokenizer and ends the load step
    with both has called the model provider (or the quantization backend)
    and the tokenizer provider during that step. *)
Lemma load_model_from_scratch (c : Collab) (quantization_type cache : pyval)
      (n : DolphinVisionNode) :
  model n = None -> tokenizer n = None ->
  is_absent (model (final (load_model c quantization_type cache n)))
  || is_absent (tokenizer (final (load_model c quantization_type cache n)))
    = false ->
  existsb is_model_load (trace (load_model c quantization_type cache n)) = true /\
  existsb is_tokenizer_load (trace (load_model c quantization_type cache n)) = true.
Proof.
  intros Hm Ht. unfold load_model.
  run_cases; rewrite ?Hm, ?Ht; cbn; intros H; try discriminate; auto.
Qed.

Lemma recognized_label_cases (label : string) :
  recognized_label label = true ->
  label = bf16_label \/ label = nf4_label \/ label = fp4_label \/
  label = int8_label.
Proof.
  unfold recognized_label. cbn [existsb]. intros H.
  repeat (apply orb_prop in H; destruct H as [H|H]);
    try (apply String.eqb_eq in H; auto); discriminate.
Qed.

(** With a label of the catalog, the first thing the load step does is to
    call the model provider or the quantization backend. *)
Lemma load_model_attempts (c : Collab) (label : string) (cache : pyval)
      (n : DolphinVisionNode) :
  recognized_label label = true ->
  exists ev rest,
    trace (load_model c (PyStr label) cache n) = ev :: rest /\
    is_model_load ev = true.
Proof.
  intros H. apply recognized_label_cases in H.
  destruct H as [-> | [-> | [-> | ->]]]; unfold load_model; run_cases; eauto.
Qed.

(** C8.  [generate_answer] starts with the load step: its trace begins with
    the trace of [load_model], whatever the image and the prompt are.  When
    the image is not a tensor or the prompt is not a string, nothing else
    happens: the unit is left as the load step left it, the trace is that of
    the load step, and the answer is "Model not loaded" if the load left the
    model or tokenizer absent and the type error otherwise.  On a unit that
    held neither model nor tokenizer before, a type error therefore comes
    only after a call to the model provider (or quantization backend) and a
    call to the tokenizer provider.  With a label of the catalog the call
    begins, on any unit and for any image and prompt, with a call to the
    model provider or the quantization backend. *)
Theorem load_precedes_type_checks (c : Collab) (image prompt : pyval)
        (kw : kwargs) (n : DolphinVisionNode) :
  let loaded := load_model c (kwargs_get kw "quantization_type" (PyStr bf16_label))
                           (kwargs_get kw "cache" (PyBool false)) n in
  let run := generate_answer c image prompt kw n in
  (exists rest, trace run = trace loaded ++ rest) /\
  (forall label,
      kwargs_get kw "quantization_type" (PyStr bf16_label) = PyStr label ->
      recognized_label label = true ->
      exists ev rest, trace run = ev :: rest /\ is_model_load ev = true) /\
  (is_tensor image && is_str prompt = false ->
   final run = final loaded /\
   trace run = trace loaded /\
   result run =
     Ret (if is_absent (model (final loaded)) || is_absent (tokenizer (final loaded))
          then model_not_loaded_msg
          else if is_tensor image then prompt_type_msg else image_type_msg) /\
   (model n = None -> tokenizer n = None ->
    result run <> Ret model_not_loaded_msg ->
    existsb is_model_load (trace run) = true /\
    existsb is_tokenizer_load (trace run) = true)).
Proof.
  intros loaded run.
  assert (Hprefix : exists rest, trace run = trace loaded ++ rest).
  { subst loaded run. unfold generate_answer, bind at 1.
    destruct (load_model_run c (kwargs_get kw "quantization_type" (PyStr bf16_label))
                (kwargs_get kw "cache" (PyBool false)) n)
      as (r & n1 & t1 & E & _).
    rewrite E.
    match goal with
    | |- context [let (_, _) := ?body n1 in _] =>
        destruct (body n1) as [[r2 n2] t2]
    end.
    exists t2. reflexivity. }
  split; [exact Hprefix|]. split.
  - intros label Hkw Hlabel. destruct Hprefix as (rest & ->).
    subst loaded. rewrite Hkw.
    destruct (load_model_attempts c label (kwargs_get kw "cache" (PyBool false))
                n Hlabel) as (ev & rest' & -> & Hev).
    exists ev, (rest' ++ rest). split; [reflexivity | exact Hev].
  - intros Hty.
    destruct (generate_answer_type_checks c image prompt kw n Hty)
      as (r & n1 & t1 & E & G).
    pose proof (load_model_from_scratch c
                  (kwargs_get kw "quantization_type" (PyStr bf16_label))
                  (kwargs_get kw "cache" (PyBool false)) n) as Hscratch.
    subst loaded run. rewrite G, E in *. unfold final, trace, result in *.
    cbn [fst snd] in *.
    split; [reflexivity|]. split; [reflexivity|]. split; [reflexivity|].
    intros Hm Ht Hres. apply Hscratch; auto.
    destruct (is_absent (model n1) || is_absent (tokenizer n1)); auto.
    now elim Hres.
Qed.

Lemma load_precedes_type_checks_witness :
  let run := generate_answer Scenario.happy (PyStr "not a tensor") (PyInt 123)
               [] (init false) in
  result run = Ret image_type_msg /\
  trace run = [EvModelFromPretrained (model_name (init false));
               EvTokenizerFromPretrained (model_name (init false));
               EvModelEval 1] /\
  existsb is_model_load (trace run) = true /\
  existsb is_tokenizer_load (trace run) = true.
Proof.
  intros run.
  destruct (load_precedes_type_checks Scenario.happy (PyStr "not a tensor")
              (PyInt 123) [] (init false)) as (_ & _ & H).
  destruct (H eq_refl) as (_ & Ht & Hr & Hfull).
  fold run in Ht, Hr, Hfull.
  split; [exact Hr|]. split; [exact Ht|].
  apply Hfull; [reflexivity | reflexivity |].
  rewrite Hr. discriminate.
Defined.

(** ** Image preprocessing *)

(** A well-shaped element goes to the converter, and only then. *)
Lemma convert_image_well_shaped (c : Collab) (img : tensor)
      (pil_images : list PILImage) (n : DolphinVisionNode) :
  well_shaped img = true ->
  convert_image c img pil_images n =
    (match to_pil_image c img with
     | Ret p => Ret (Next (pil_images ++ [p]))
     | Raise e =>
         Ret (Return ((match exn_cls e with
                       | ValueError => "Image processing error: "
                       | _ => "Error converting image tensor to PIL Image: "
                       end) +++ exn_msg e))
     end, n, [EvToPILImage img]).
Proof.
  unfold well_shaped, convert_image, shape_at. intros H.
  apply andb_prop in H. destruct H as [Hlen Hch].
  destruct (nth_error (shape img) 2) as [ch|]; [|discriminate].
  unfold_monad. cbn. rewrite Hch, Hlen. cbn.
  destruct (to_pil_image c img) as [p|e]; cbn; [reflexivity|].
  destruct (exn_cls e); reflexivity.
Qed.

(** Three axes or more, third axis of a size other than 1 and 3. *)
Lemma convert_image_bad_channels (c : Collab) (img : tensor) (ch : nat)
      (pil_images : list PILImage) (n : DolphinVisionNode) :
  nth_error (shape img) 2 = Some ch ->
  (ch =? 1)%nat || (ch =? 3)%nat = false ->
  convert_image c img pil_images n =
    (Ret (Return ("Image processing error: " +++
                  "Expected image tensor to have 1 or 3 channels, but got " +++
                  str_of_nat ch)), n, []).
Proof.
  intros Hn Hch. unfold convert_image, shape_at. rewrite Hn.
  unfold_monad. cbn. rewrite Hch. reflexivity.
Qed.

(** More than three axes, third axis of size 1 or 3. *)
Lemma convert_image_extra_axes (c : Collab) (img : tensor) (ch : nat)
      (pil_images : list PILImage) (n : DolphinVisionNode) :
  nth_error (shape img) 2 = Some ch ->
  (ch =? 1)%nat || (ch =? 3)%nat = true ->
  (length (shape img) =? 3)%nat = false ->
  convert_image c img pil_images n =
    (Ret (Return ("Image processing error: " +++
                  "Expected image tensor to have 3 dimensions (C, H, W), but got " +++
                  str_of_nat (length (shape img)))), n, []).
Proof.
  intros Hn Hch Hlen. unfold convert_image, shape_at. rewrite Hn.
  unfold_monad. cbn. rewrite Hch, Hlen. reflexivity.
Qed.

(** Fewer than three axes: [img.shape[2]] raises before either test. *)
Lemma convert_image_few_axes (c : Collab) (img : tensor)
      (pil_images : list PILImage) (n : DolphinVisionNode) :
  length (shape img) < 3 ->
  convert_image c img pil_images n =
    (Ret (Return "Error converting image tensor to PIL Image: tuple index out of range"),
     n, []).
Proof.
  intros Hlen. unfold convert_image, shape_at.
  assert (E : nth_error (shape img) 2 = None) by (apply nth_error_None; lia).
  rewrite E. reflexivity.
Qed.

(** Fail-fast: after a run of elements that convert, an element that makes
    the loop body return ends the loop; the elements after it are not
    looked at. *)
Lemma convert_images_stops (c : Collab) (good : list tensor) (bad : tensor)
      (rest : list tensor) (n : DolphinVisionNode) (msg : string) (t : list event) :
  Forall (fun img => well_shaped img = true /\
                     exists p, to_pil_image c img = Ret p) good ->
  (forall pil_images, convert_image c bad pil_images n = (Ret (Return msg), n, t)) ->
  forall pil_images,
    convert_images c (good ++ bad :: rest) pil_images n
      = (Ret (Return msg), n, map EvToPILImage good ++ t).
Proof.
  intros Hgood Hbad. induction Hgood as [|img good (Hs & p & Hp) _ IH];
    intros pil_images.
  - cbn [app convert_images map]. unfold bindF, bind. rewrite Hbad.
    unfold ret. cbn. now rewrite app_nil_r.
  - cbn [app convert_images map]. unfold bindF, bind.
    rewrite (convert_image_well_shaped c img pil_images n Hs), Hp, IH.
    reflexivity.
Qed.

(** The loop never raises, never touches the unit, and calls nothing but
    the image converter. *)
Lemma prefix_append (p s : string) : String.prefix p (p +++ s) = true.
Proof.
  induction p as [|a p IH]; cbn.
  - destruct s; reflexivity.
  - destruct (ascii_dec a a) as [_|ne]; [exact IH | now elim ne].
Qed.

Lemma is_error_message_intro (p s : string) :
  In p error_prefixes -> is_error_message (p +++ s) = true.
Proof.
  intros H. apply existsb_exists. exists p. split; [exact H|].
  apply prefix_append.
Qed.

Ltac error_message :=
  first
    [ apply (is_error_message_intro model_not_loaded_msg)
    | apply (is_error_message_intro "Invalid input: ")
    | apply (is_error_message_intro "Image processing error: ")
    | apply (is_error_message_intro "Error converting image tensor to PIL Image: ")
    | apply (is_error_message_intro "Error processing images with the model: ")
    | apply (is_error_message_intro "Error during model generation: ")
    | apply (is_error_message_intro "An unexpected error occurred: ") ];
  cbn; auto 10.

Lemma convert_image_run (c : Collab) (img : tensor) (pil_images : list PILImage)
      (n : DolphinVisionNode) :
  exists x t,
    convert_image c img pil_images n = (Ret x, n, t) /\
    forallb is_to_pil t = true /\
    (forall msg, x = Return msg -> is_error_message msg = true).
Proof.
  unfold convert_image, shape_at. run_cases;
    (eexists; eexists; split; [reflexivity|]; split; [reflexivity|]);
    intros msg [=<-]; error_message.
Qed.

Lemma convert_images_run (c : Collab) (imgs : list tensor)
      (pil_images : list PILImage) (n : DolphinVisionNode) :
  exists x t,
    convert_images c imgs pil_images n = (Ret x, n, t) /\
    forallb is_to_pil t = true /\
    (forall msg, x = Return msg -> is_error_message msg = true).
Proof.
  revert pil_images. induction imgs as [|img rest IH]; intros pil_images.
  - exists (Next pil_images), []. repeat split. discriminate.
  - cbn [convert_images]. unfold bindF, bind.
    destruct (convert_image_run c img pil_images n) as (x & t & E & Ht & Hx).
    rewrite E. destruct x as [acc|msg].
    + destruct (IH acc) as (x' & t' & E' & Ht' & Hx'). rewrite E'.
      exists x', (t ++ t'). split; [reflexivity|].
      split; [now rewrite forallb_app, Ht, Ht' | exact Hx'].
    + unfold ret. exists (Return msg), (t ++ []). split; [reflexivity|].
      split; [now rewrite app_nil_r | exact Hx].
Qed.

(** C4.  After elements that convert, an element with fewer than three
    axes stops the loop at once, and no later element is converted; but the
    message is the one of the conversion handler, "Error converting image
    tensor to PIL Image: tuple index out of range", not the shape message:
    the channel test indexes the third axis before the number of axes is
    tested. *)
Theorem convert_images_few_axes (c : Collab) (good : list tensor) (bad : tensor)
        (rest : list tensor) (pil_images : list PILImage) (n : DolphinVisionNode) :
  Forall (fun img => well_shaped img = true /\
                     exists p, to_pil_image c img = Ret p) good ->
  length (shape bad) < 3 ->
  convert_images c (good ++ bad :: rest) pil_images n
    = (Ret (Return "Error converting image tensor to PIL Image: tuple index out of range"),
       n, map EvToPILImage good).
Proof.
  intros Hgood Hbad.
  rewrite (convert_images_stops c good bad rest n
             "Error converting image tensor to PIL Image: tuple index out of range"
             [] Hgood).
  - now rewrite app_nil_r.
  - intros acc. now apply convert_image_few_axes.
Qed.

Lemma convert_images_few_axes_witness :
  convert_images Scenario.happy
    ([Tensor [64; 64; 3] []] ++ Tensor [64; 64] [] :: [Tensor [64; 64; 3] []])
    [] (init false)
    = (Ret (Return "Error converting image tensor to PIL Image: tuple index out of range"),
       init false, map EvToPILImage [Tensor [64; 64; 3] []]).
Proof.
  apply (convert_images_few_axes Scenario.happy [Tensor [64; 64; 3] []]
           (Tensor [64; 64] []) [Tensor [64; 64; 3] []] [] (init false)).
  - repeat constructor. now exists 0.
  - simpl. lia.
Defined.

(** The same request through the entry point: a batch of one 64 x 64
    element without a channel axis. *)
Lemma generate_answer_few_axes :
  result (generate_answer Scenario.happy (Scenario.batch 1 [64; 64])
            Scenario.prompt_text [] (init false))
    = Ret "Error converting image tensor to PIL Image: tuple index out of range".
Proof. reflexivity. Qed.

(** What the loop does get right: with three axes or more, a wrong channel
    count or a surplus axis stops the loop at once with a shape message
    that names the offending number. *)
Lemma convert_images_shape_error (c : Collab) (good : list tensor) (bad : tensor)
      (rest : list tensor) (pil_images : list PILImage) (n : DolphinVisionNode)
      (ch : nat) :
  Forall (fun img => well_shaped img = true /\
                     exists p, to_pil_image c img = Ret p) good ->
  nth_error (shape bad) 2 = Some ch ->
  well_shaped bad = false ->
  convert_images c (good ++ bad :: rest) pil_images n
    = (Ret (Return
              ("Image processing error: " +++
               (if (ch =? 1)%nat || (ch =? 3)%nat
                then "Expected image tensor to have 3 dimensions (C, H, W), but got " +++
                     str_of_nat (length (shape bad))
                else "Expected image tensor to have 1 or 3 channels, but got " +++
                     str_of_nat ch))),
       n, map EvToPILImage good).
Proof.
  intros Hgood Hn Hbad.
  erewrite (convert_images_stops c good bad rest n _ [] Hgood).
  - now rewrite app_nil_r.
  - intros acc. unfold well_shaped in Hbad. rewrite Hn in Hbad.
    destruct ((ch =? 1)%nat || (ch =? 3)%nat) eqn:Hch.
    + rewrite andb_true_r in Hbad.
      now apply convert_image_extra_axes with (ch := ch).
    + now apply convert_image_bad_channels.
Qed.

(** The scenario with five channels. *)
Lemma generate_answer_five_channels :
  result (generate_answer Scenario.happy (Scenario.batch 1 [64; 64; 5])
            Scenario.prompt_text [] (init false))
    = Ret "Image processing error: Expected image tensor to have 1 or 3 channels, but got 5".
Proof. reflexivity. Qed.

(** ** Inference without a [cache] attribute *)

Lemma tokenize_chunks_quiet (c : Collab) (chunks : list string)
      (n : DolphinVisionNode) :
  exists r t,
    tokenize_chunks c chunks n = (r, n, t) /\ forallb is_tokenize t = true.
Proof.
  induction chunks as [|chunk rest (r & t & E & Ht)].
  - exists (Ret []), []. split; reflexivity.
  - cbn [tokenize_chunks]. unfold_monad. cbn.
    destruct (tokenizer n) as [tk|]; cbn; eauto.
    destruct (tokenize c tk chunk); cbn; eauto.
    rewrite E. destruct r; cbn; rewrite ?app_nil_r, ?Ht; eauto.
Qed.

Lemma encode_prompt_quiet (c : Collab) (text : string) (n : DolphinVisionNode) :
  exists r t,
    encode_prompt c text n = (r, n, t) /\ forallb is_tokenize t = true.
Proof.
  unfold encode_prompt.
  destruct (tokenize_chunks_quiet c (split image_marker text) n)
    as (r & t & E & Ht).
  unfold_monad. rewrite E. destruct r as [idss|e]; [|eauto].
  destruct (list_index idss 0); cbn; rewrite ?app_nil_r; eauto.
  destruct (list_index idss 1); cbn; rewrite ?app_nil_r; eauto.
  destruct (torch_tensor_long _); cbn; rewrite ?app_nil_r; eauto.
Qed.

Lemma forallb_excludes (P Q : event -> bool) (t : list event) :
  (forall ev, P ev = true -> Q ev = false) ->
  forallb P t = true -> existsb Q t = false.
Proof.
  intros HPQ. induction t as [|ev t IH]; [reflexivity|].
  cbn. intros H. apply andb_prop in H. destruct H as [H1 H2].
  now rewrite (HPQ _ H1), IH.
Qed.

Lemma to_pil_quiet (t : list event) :
  forallb is_to_pil t = true ->
  existsb is_unload t = false /\ existsb is_decode t = false.
Proof.
  intros H. split; apply (forallb_excludes is_to_pil); auto;
    intros []; cbn; congruence.
Qed.

Lemma tokenize_quiet (t : list event) :
  forallb is_tokenize t = true ->
  existsb is_unload t = false /\ existsb is_decode t = false.
Proof.
  intros H. split; apply (forallb_excludes is_tokenize); auto;
    intros []; cbn; congruence.
Qed.

Lemma load_quiet (t : list event) :
  forallb is_load_event t = true ->
  existsb is_unload t = false /\ existsb is_decode t = false.
Proof.
  intros H. split; apply (forallb_excludes is_load_event); auto;
    intros []; cbn; congruence.
Qed.

Ltac loop_step :=
  match goal with
  | |- context [convert_images ?c ?l ?acc ?n] =>
      let E := fresh "E" in
      let H := fresh "H" in
      destruct (convert_images_run c l acc n) as (? & ? & E & H & ?);
      rewrite E; clear E; apply to_pil_quiet in H; destruct H
  | |- context [encode_prompt ?c ?text ?n] =>
      let E := fresh "E" in
      let H := fresh "H" in
      destruct (encode_prompt_quiet c text n) as (? & ? & E & H);
      rewrite E; clear E; apply tokenize_quiet in H; destruct H
  end.

(** On a unit without a [cache] attribute the [try] block never gets past
    reading [self.cache]: it leaves the unit untouched, never calls
    [unload_model], and once the decoder has been called the block ends in
    an exception, the decoder's own or the [AttributeError]. *)
Lemma describe_images_without_cache (c : Collab) (image_t : tensor)
      (prompt_s : string) (n : DolphinVisionNode) (m : Model) (tk : Tokenizer) :
  attr_cache n = None -> model n = Some m -> tokenizer n = Some tk ->
  exists x t,
    describe_images c image_t prompt_s n = (x, n, t) /\
    ends_in_error x /\
    existsb is_unload t = false /\
    (existsb is_decode t = true ->
     exists ids,
       In (EvDecode ids) t /\
       x = Raise (match decode c tk ids with
                  | Ret _ => cache_attribute_error
                  | Raise e => e
                  end)).
Proof.
  intros Hc Hm Htk. unfold describe_images, self_cache. unfold_monad. cbn.
  repeat (first [ loop_step | progress rewrite ?Hc, ?Hm, ?Htk | case_split ]; cbn);
    (eexists; eexists; split; [reflexivity|]);
    (split;
       [ first
           [ exact I
           | match goal with
             | H : forall msg, _ -> is_error_message msg = true |- _ =>
                 now apply H
             end
           | error_message ] |]);
    repeat first
      [ rewrite existsb_app
      | match goal with H : existsb _ _ = false |- _ => rewrite H end
      | progress cbn [existsb is_unload is_decode orb] ];
    (split; [reflexivity|]); intros Hd; try discriminate.
  all: match goal with H : decode _ _ ?ids = _ |- _ => exists ids; rewrite H end;
    (split; [|reflexivity]);
    repeat first [ rewrite in_app_iff | progress cbn [In] ]; auto 20.
Qed.

(** The whole call on a unit without a [cache] attribute: the answer is
    one of the node's own messages, nothing is unloaded, the unit ends as
    the load step left it, and a call that reached the decoder answers with
    the message of the outer handler. *)
Lemma generate_answer_run_without_cache (c : Collab) (image prompt : pyval)
      (kw : kwargs) (n : DolphinVisionNode) :
  attr_cache n = None ->
  let loaded := load_model c (kwargs_get kw "quantization_type" (PyStr bf16_label))
                           (kwargs_get kw "cache" (PyBool false)) n in
  let run := generate_answer c image prompt kw n in
  (exists answer, result run = Ret answer /\ is_error_message answer = true) /\
  existsb is_unload (trace run) = false /\
  final run = final loaded /\
  (existsb is_decode (trace run) = true ->
   exists tk ids,
     tokenizer (final run) = Some tk /\
     In (EvDecode ids) (trace run) /\
     model (final run) <> None /\
     result run =
       Ret ("An unexpected error occurred: " +++
            exn_msg (match decode c tk ids with
                     | Ret _ => cache_attribute_error
                     | Raise e => e
                     end))).
Proof.
  intros Hc loaded run. subst loaded run.
  destruct (load_model_run c (kwargs_get kw "quantization_type" (PyStr bf16_label))
              (kwargs_get kw "cache" (PyBool false)) n)
    as (r & n1 & t1 & E & _ & _ & Hattr & Hload).
  rewrite Hc in Hattr. apply load_quiet in Hload. destruct Hload as [Hu Hd].
  destruct (is_tensor image && is_str prompt) eqn:Hty.
  - destruct image as [| | | |image_t|]; try discriminate.
    destruct prompt as [| | |prompt_s| |]; try discriminate.
    destruct (generate_answer c (PyTensor image_t) (PyStr prompt_s) kw n)
      as [[x nf] tf] eqn:G.
    rewrite E. unfold result, final, trace. cbn [fst snd].
    unfold generate_answer, bind at 1 in G. rewrite E in G.
    unfold def, bindF at 1, bind, stmt, get, return_, ret in G. cbn in G.
    destruct (model n1) as [m|] eqn:Hm; cbn in G;
      [destruct (tokenizer n1) as [tk|] eqn:Htk; cbn in G|];
      try (injection G as <- <- <-; rewrite app_nil_r, Hu, Hd;
           split; [eexists; split; [reflexivity | error_message]|];
           repeat split; discriminate).
    unfold try_except, except_Exception in G.
    destruct (describe_images_without_cache c image_t prompt_s n1 m tk Hattr Hm Htk)
      as (y & t2 & D & Hy & Hu2 & Hd2).
    rewrite D in G.
    destruct y as [[a|msg]|e]; cbn in G, Hy; [contradiction| |];
      injection G as <- <- <-;
      rewrite ?app_nil_r, !existsb_app, Hu, Hu2, Hd;
      cbn [orb];
      (split; [eexists; split; [reflexivity | first [exact Hy | error_message]]|]);
      (split; [reflexivity|]); (split; [reflexivity|]); intros Hdec;
      destruct (Hd2 Hdec) as (ids & Hin & Hx); try discriminate.
    injection Hx as ->.
    exists tk, ids. rewrite Hm. repeat split; try discriminate; auto.
    apply in_or_app. now right.
  - destruct (generate_answer_type_checks c image prompt kw n Hty)
      as (r' & n1' & t1' & E' & G).
    rewrite E in E'. injection E' as <- <- <-.
    rewrite G, E. unfold result, final, trace. cbn [fst snd].
    rewrite Hu, Hd.
    split; [|repeat split; discriminate].
    eexists; split; [reflexivity|].
    destruct (is_absent (model n1) || is_absent (tokenizer n1));
      [|destruct (is_tensor image)]; error_message.
Qed.

(** ** The units a host can hold *)

Lemma unload_keeps_fields (c : Collab) (n : DolphinVisionNode) :
  final (unload c n) = n.
Proof.
  unfold unload. unfold_monad. cbn. destruct (model n); reflexivity.
Qed.

(** No method of the class creates the [cache] attribute. *)
Lemma reachable_without_cache (n : DolphinVisionNode) :
  reachable n -> attr_cache n = None.
Proof.
  induction 1 as [b | c q cache n _ IH | c image prompt kw n _ IH | c n _ IH].
  - reflexivity.
  - destruct (load_model_run c q cache n) as (r & n' & t & E & _ & _ & Ha & _).
    rewrite E. cbn. congruence.
  - destruct (generate_answer_run_without_cache c image prompt kw n IH)
      as (_ & _ & -> & _).
    destruct (load_model_run c (kwargs_get kw "quantization_type" (PyStr bf16_label))
                (kwargs_get kw "cache" (PyBool false)) n)
      as (r & n' & t & E & _ & _ & Ha & _).
    rewrite E. cbn. congruence.
  - now rewrite unload_keeps_fields.
Qed.

(** C1.  On every unit a host can hold, [generate_answer] answers with one
    of its own error messages, never calls [unload_model] and leaves the
    unit exactly as the load step left it: the quantized flag is not reset
    and the model reference stays.  Whenever
    the call reaches the decoder, the answer is not the decoded text but
    the message of the outer handler: "An unexpected error occurred: "
    followed by the decoder's own failure or, when decoding succeeded, by
    the [AttributeError] raised on reading [self.cache], an attribute that
    no method assigns. *)
Theorem generate_answer_without_cache (c : Collab) (image prompt : pyval)
        (kw : kwargs) (n : DolphinVisionNode) :
  reachable n ->
  let loaded := load_model c (kwargs_get kw "quantization_type" (PyStr bf16_label))
                           (kwargs_get kw "cache" (PyBool false)) n in
  let run := generate_answer c image prompt kw n in
  (exists answer, result run = Ret answer /\ is_error_message answer = true) /\
  existsb is_unload (trace run) = false /\
  final run = final loaded /\
  (existsb is_decode (trace run) = true ->
   exists tk ids,
     tokenizer (final run) = Some tk /\
     In (EvDecode ids) (trace run) /\
     model (final run) <> None /\
     result run =
       Ret ("An unexpected error occurred: " +++
            exn_msg (match decode c tk ids with
                     | Ret _ => cache_attribute_error
                     | Raise e => e
                     end))).
Proof.
  intros Hn. apply generate_answer_run_without_cache.
  now apply reachable_without_cache.
Qed.

Lemma generate_answer_without_cache_witness :
  let run := generate_answer Scenario.happy (Scenario.batch 1 [64; 64; 3])
               Scenario.prompt_text
               [("quantization_type", PyStr bf16_label); ("cache", PyBool false)]
               (init false) in
  result run = Ret "An unexpected error occurred: 'DolphinVisionNode' object has no attribute 'cache'" /\
  existsb is_unload (trace run) = false /\
  model (final run) <> None /\
  final run = final (load_model Scenario.happy (PyStr bf16_label) (PyBool false)
                       (init false)).
Proof.
  intros run.
  destruct (generate_answer_without_cache Scenario.happy
              (Scenario.batch 1 [64; 64; 3]) Scenario.prompt_text
              [("quantization_type", PyStr bf16_label); ("cache", PyBool false)]
              (init false) (reach_init false)) as (_ & Hu & Hf & Hdec).
  destruct (Hdec eq_refl) as (tk & ids & _ & _ & Hm & Hr).
  repeat split; assumption.
Defined.

(** C2.  For a request with a label outside the four recognized ones,
    [load_model] returns the message "Invalid quantization type.", but
    [generate_answer] drops that return value.  On a unit without a model
    it answers with the generic "Model not loaded" message, without any
    collaborator call; and on no unit a host can hold is its answer
    "Invalid quantization type.". *)
Theorem generate_answer_invalid_label (c : Collab) (image prompt : pyval)
        (kw : kwargs) (label : string) (n : DolphinVisionNode) :
  kwargs_get kw "quantization_type" (PyStr bf16_label) = PyStr label ->
  recognized_label label = false ->
  result (load_model c (PyStr label) (kwargs_get kw "cache" (PyBool false)) n)
    = Ret (Some "Invalid quantization type.") /\
  (model n = None ->
   generate_answer c image prompt kw n = (Ret model_not_loaded_msg, n, [])) /\
  (reachable n ->
   result (generate_answer c image prompt kw n)
     <> Ret "Invalid quantization type.").
Proof.
  intros Hkw Hlabel.
  pose proof (load_model_invalid_label c label
                (kwargs_get kw "cache" (PyBool false)) n Hlabel) as L.
  split; [now rewrite L|]. split.
  - intros Hmodel. unfold generate_answer, bind at 1. rewrite Hkw, L.
    unfold_monad. cbn. rewrite Hmodel. reflexivity.
  - intros Hn.
    destruct (generate_answer_run_without_cache c image prompt kw n
                (reachable_without_cache n Hn)) as ((answer & -> & Ha) & _).
    intros [= ->]. vm_compute in Ha. discriminate.
Qed.

Lemma generate_answer_invalid_label_witness :
  result (load_model Scenario.happy (PyStr "unsupported-label")
            (kwargs_get [("quantization_type", PyStr "unsupported-label")]
               "cache" (PyBool false)) (init true))
    = Ret (Some "Invalid quantization type.") /\
  generate_answer Scenario.happy (Scenario.batch 1 [64; 64; 3]) Scenario.prompt_text
    [("quantization_type", PyStr "unsupported-label")] (init true)
    = (Ret model_not_loaded_msg, init true, []) /\
  result (generate_answer Scenario.happy (Scenario.batch 1 [64; 64; 3])
            Scenario.prompt_text
            [("quantization_type", PyStr "unsupported-label")] (init true))
    <> Ret "Invalid quantization type.".
Proof.
  destruct (generate_answer_invalid_label Scenario.happy
              (Scenario.batch 1 [64; 64; 3]) Scenario.prompt_text
              [("quantization_type", PyStr "unsupported-label")]
              "unsupported-label" (init true) eq_refl eq_refl)
    as (Hload & Hfresh & Hany).
  split; [exact Hload|]. split; [exact (Hfresh eq_refl)|].
  exact (Hany (reach_init true)).
Defined.

(** Had something set [self.cache] to a false value, the same request would
    end as lines 213 to 216 intend: [unload_model] is the last call, the
    quantized flag is reset and the stripped text is returned.  Even then
    the model field is not cleared. *)
Lemma generate_answer_with_cache_attribute :
  let run := generate_answer Scenario.happy (Scenario.batch 1 [64; 64; 3])
               Scenario.prompt_text [("quantization_type", PyStr int8_label)]
               (Scenario.with_cache_attribute (PyBool false)) in
  result run = Ret "A cat." /\
  last (trace run) (EvDecode []) = EvUnloadModel (Some 2) /\
  quantized (final run) = false /\
  model (final run) = Some 2.
Proof. vm_compute. repeat split. Qed.

(** ** Unloading *)



(** ** Change detection *)



(** * Further properties of the code *)

(** ** The declared inputs and the catalog *)

Lemma offered_labels_recognized (label : string) :
  In label (offered_labels INPUT_TYPES) <-> recognized_label label = true.
Proof.
  split.
  - cbn. intros [<- | [<- | [<- | [<- | []]]]]; reflexivity.
  - intros H. apply recognized_label_cases in H.
    destruct H as [-> | [-> | [-> | ->]]]; cbn; auto.
Qed.

(** X1.  The labels [INPUT_TYPES] offers are exactly the keys of
    [quantization_map], in the same order; with any of them [load_model]
    goes straight to the model provider or the quantization backend, and
    its return value is never "Invalid quantization type.". *)
Theorem offered_labels_accepted (c : Collab) (label : string) (cache : pyval)
        (n : DolphinVisionNode) :
  In label (offered_labels INPUT_TYPES) ->
  offered_labels INPUT_TYPES = map fst quantization_map /\
  (exists ev rest,
      trace (load_model c (PyStr label) cache n) = ev :: rest /\
      is_model_load ev = true) /\
  result (load_model c (PyStr label) cache n)
    <> Ret (Some "Invalid quantization type.").
Proof.
  intros H. split; [reflexivity|]. split.
  - apply load_model_attempts. now apply offered_labels_recognized.
  - cbn in H. destruct H as [<- | [<- | [<- | [<- | []]]]];
      unfold load_model; run_cases; discriminate.
Qed.

Lemma offered_labels_accepted_witness :
  offered_labels INPUT_TYPES = map fst quantization_map /\
  (exists ev rest,
      trace (load_model Cases.missing_model (PyStr fp4_label) (PyBool true)
               (init true)) = ev :: rest /\
      is_model_load ev = true) /\
  result (load_model Cases.missing_model (PyStr fp4_label) (PyBool true) (init true))
    <> Ret (Some "Invalid quantization type.").
Proof.
  apply (offered_labels_accepted Cases.missing_model fp4_label (PyBool true)
           (init true)).
  cbn. auto.
Defined.

(** X2.  A request that passes every optional input at the default that
    [INPUT_TYPES] declares runs exactly like a request that passes no
    keyword argument: the defaults declared to the host and the defaults
    read by [generate_answer] agree, and the declared default label is one
    of the offered labels. *)
Theorem declared_defaults_agree (c : Collab) (image prompt : pyval)
        (n : DolphinVisionNode) :
  generate_answer c image prompt (declared_defaults INPUT_TYPES) n
    = generate_answer c image prompt [] n /\
  (exists label,
      kwargs_get (declared_defaults INPUT_TYPES) "quantization_type" PyNone
        = PyStr label /\
      In label (offered_labels INPUT_TYPES)).
Proof.
  split; [reflexivity|].
  exists bf16_label. split; [reflexivity | cbn; auto].
Qed.

(** X3.  The labels "nf4 ..." and "fp4 ..." are told apart nowhere: both
    resolve to the bitsandbytes method with 4 bits, so a load, and a whole
    request, with one label is the same run as with the other. *)
Theorem nf4_and_fp4_coincide (c : Collab) (image prompt cache : pyval)
        (kw : kwargs) (n : DolphinVisionNode) :
  load_model c (PyStr nf4_label) cache n = load_model c (PyStr fp4_label) cache n /\
  generate_answer c image prompt (("quantization_type", PyStr nf4_label) :: kw) n
    = generate_answer c image prompt (("quantization_type", PyStr fp4_label) :: kw) n.
Proof.
  split; reflexivity.
Qed.

(** ** The outcomes of a load *)

(** X4.  [load_model] makes at most three collaborator calls, in a fixed
    order: the model provider or the quantization backend, then the
    tokenizer provider, then [eval] on the model now held.  It never asks
    for the tokenizer before a model has been obtained in the same call. *)
Theorem load_model_call_order (c : Collab) (quantization_type cache : pyval)
        (n : DolphinVisionNode) :
  let run := load_model c quantization_type cache n in
  trace run = [] \/
  exists first,
    is_model_load first = true /\
    (trace run = [first] \/
     trace run = [first; EvTokenizerFromPretrained (model_name n)] \/
     exists m,
       model (final run) = Some m /\
       trace run = [first; EvTokenizerFromPretrained (model_name n);
                    EvModelEval m]).
Proof.
  unfold load_model. run_cases;
    first
      [ left; reflexivity
      | right; eexists;
        (split;
           [| first
                [ left; reflexivity
                | right; left; reflexivity
                | right; right; eexists; split; reflexivity ] ]);
        reflexivity ].
Qed.

(** X5.  When [load_model] returns [None] the unit is ready: the model and
    the tokenizer fields are both set, and the call made exactly three
    collaborator calls, ending with a successful [eval] on the model now
    held. *)
Theorem load_model_None_ready (c : Collab) (quantization_type cache : pyval)
        (n : DolphinVisionNode) :
  result (load_model c quantization_type cache n) = Ret None ->
  exists m tk first,
    model (final (load_model c quantization_type cache n)) = Some m /\
    tokenizer (final (load_model c quantization_type cache n)) = Some tk /\
    tokenizer_from_pretrained c (model_name n) = Ret tk /\
    model_eval c m = Ret tt /\
    is_model_load first = true /\
    trace (load_model c quantization_type cache n)
      = [first; EvTokenizerFromPretrained (model_name n); EvModelEval m].
Proof.
  unfold load_model. run_cases; intros H; try discriminate;
    match goal with
    | H : model_eval c ?m = Ret ?u |- _ =>
        destruct u; do 3 eexists; repeat split; eauto
    end.
Qed.

Lemma load_model_None_ready_witness :
  exists m tk first,
    model (final (load_model Cases.all_fine (PyStr int8_label) (PyBool true)
                    (init false))) = Some m /\
    tokenizer (final (load_model Cases.all_fine (PyStr int8_label) (PyBool true)
                        (init false))) = Some tk /\
    tokenizer_from_pretrained Cases.all_fine (model_name (init false)) = Ret tk /\
    model_eval Cases.all_fine m = Ret tt /\
    is_model_load first = true /\
    trace (load_model Cases.all_fine (PyStr int8_label) (PyBool true) (init false))
      = [first; EvTokenizerFromPretrained (model_name (init false)); EvModelEval m].
Proof.
  apply (load_model_None_ready Cases.all_fine (PyStr int8_label) (PyBool true)
           (init false)).
  reflexivity.
Defined.

(** X6.  When the quantization backend returns no model, [load_model]
    answers "Failed to load model." without asking for the tokenizer; by
    then it has overwritten the model field with [None], dropping a model
    held from an earlier request, and has set the quantized flag.  The
    request then ends with the "Model not loaded" message. *)
Theorem load_model_null_quantizer (c : Collab) (label : string) (bits : option Z)
        (image prompt : pyval) (kw : kwargs) (n : DolphinVisionNode) :
  In (label, ("bitsandbytes", bits)) quantization_map ->
  kwargs_get kw "quantization_type" (PyStr bf16_label) = PyStr label ->
  quantize_model c (model_name n) (device n)
    (kwargs_get kw "cache" (PyBool false)) bits = Ret None ->
  load_model c (PyStr label) (kwargs_get kw "cache" (PyBool false)) n
    = (Ret (Some "Failed to load model."),
       set_quantized true (set_model None n),
       [EvQuantizeModel (model_name n) (device n)
          (kwargs_get kw "cache" (PyBool false)) bits]) /\
  generate_answer c image prompt kw n
    = (Ret model_not_loaded_msg,
       set_quantized true (set_model None n),
       [EvQuantizeModel (model_name n) (device n)
          (kwargs_get kw "cache" (PyBool false)) bits]).
Proof.
  intros Hin Hkw Hq.
  assert (L : load_model c (PyStr label) (kwargs_get kw "cache" (PyBool false)) n
              = (Ret (Some "Failed to load model."),
                 set_quantized true (set_model None n),
                 [EvQuantizeModel (model_name n) (device n)
                    (kwargs_get kw "cache" (PyBool false)) bits])).
  { unfold load_model. cbn in Hin.
    destruct Hin as [H|[H|[H|[H|[]]]]]; try discriminate;
      injection H as <- <-; unfold_monad; cbn; rewrite Hq; reflexivity. }
  split; [exact L|].
  unfold generate_answer, bind at 1. rewrite Hkw, L.
  unfold_monad. reflexivity.
Qed.

Lemma load_model_null_quantizer_witness :
  load_model Cases.null_quantizer (PyStr nf4_label) (PyBool false) Cases.loaded
    = (Ret (Some "Failed to load model."),
       set_quantized true (set_model None Cases.loaded),
       [EvQuantizeModel (model_name Cases.loaded) "cpu" (PyBool false) (Some 4%Z)]) /\
  generate_answer Cases.null_quantizer (Scenario.batch 1 [64; 64; 3])
    Scenario.prompt_text [("quantization_type", PyStr nf4_label)] Cases.loaded
    = (Ret model_not_loaded_msg,
       set_quantized true (set_model None Cases.loaded),
       [EvQuantizeModel (model_name Cases.loaded) "cpu" (PyBool false) (Some 4%Z)]).
Proof.
  apply (load_model_null_quantizer Cases.null_quantizer nf4_label (Some 4%Z)
           (Scenario.batch 1 [64; 64; 3]) Scenario.prompt_text
           [("quantization_type", PyStr nf4_label)] Cases.loaded).
  - right; left; reflexivity.
  - reflexivity.
  - reflexivity.
Defined.

(** X7.  When the model provider raises on a full-precision load, the unit
    is left untouched (a model held from an earlier request stays) and the
    tokenizer is not asked for.  A not-found error or an [OSError] gives
    the message that names the model; any other exception gives the
    message of the outer handler. *)
Theorem load_model_provider_raises (c : Collab) (cache : pyval)
        (n : DolphinVisionNode) (e : exn) :
  model_from_pretrained c (model_name n) = Raise e ->
  load_model c (PyStr bf16_label) cache n
    = (Ret (Some
              (match exn_cls e with
               | PreTrainedModelNotFoundError | OSError =>
                   "Error loading model '" +++ model_name n +++
                   "'. It might not exist or there was an OSError: " +++ exn_msg e
               | _ =>
                   "An unexpected error occurred while loading the model: " +++
                   exn_msg e
               end)),
       n, [EvModelFromPretrained (model_name n)]).
Proof.
  intros H. unfold load_model. unfold_monad. cbn. rewrite H. cbn.
  destruct (exn_cls e); reflexivity.
Qed.

Lemma load_model_provider_raises_witness :
  load_model Cases.missing_model (PyStr bf16_label) (PyBool false) Cases.loaded
    = (Ret (Some "Error loading model 'cognitivecomputations/dolphin-vision-7b'. It might not exist or there was an OSError: no such repository"),
       Cases.loaded, [EvModelFromPretrained (model_name Cases.loaded)]).
Proof.
  exact (load_model_provider_raises Cases.missing_model (PyBool false)
           Cases.loaded (Exn OSError "no such repository") eq_refl).
Defined.

(** X8.  When the quantization backend raises, whatever the exception,
    [load_model] answers with the message of the outer handler and leaves
    the unit untouched: the inner handler of the full-precision branch has
    no counterpart here. *)
Theorem load_model_quantizer_raises (c : Collab) (label : string)
        (bits : option Z) (cache : pyval) (n : DolphinVisionNode) (e : exn) :
  In (label, ("bitsandbytes", bits)) quantization_map ->
  quantize_model c (model_name n) (device n) cache bits = Raise e ->
  load_model c (PyStr label) cache n
    = (Ret (Some ("An unexpected error occurred while loading the model: " +++
                  exn_msg e)),
       n, [EvQuantizeModel (model_name n) (device n) cache bits]).
Proof.
  intros Hin Hq. unfold load_model. cbn in Hin.
  destruct Hin as [H|[H|[H|[H|[]]]]]; try discriminate;
    injection H as <- <-; unfold_monad; cbn; rewrite Hq; reflexivity.
Qed.

Lemma load_model_quantizer_raises_witness :
  load_model Cases.missing_model (PyStr int8_label) (PyBool true) Cases.loaded
    = (Ret (Some "An unexpected error occurred while loading the model: CUDA out of memory"),
       Cases.loaded,
       [EvQuantizeModel (model_name Cases.loaded) "cpu" (PyBool true) (Some 8%Z)]).
Proof.
  apply (load_model_quantizer_raises Cases.missing_model int8_label (Some 8%Z)
           (PyBool true) Cases.loaded Cases.oom).
  - right; right; right; left; reflexivity.
  - reflexivity.
Defined.

(** X9.  The [cache] argument reaches the quantization backend only: on a
    full-precision request it is ignored, so two requests that name the
    full-precision label and differ in nothing but their other keyword
    arguments are the same run. *)
Theorem bf16_ignores_cache (c : Collab) (image prompt : pyval) (kw1 kw2 : kwargs)
        (n : DolphinVisionNode) :
  kwargs_get kw1 "quantization_type" (PyStr bf16_label) = PyStr bf16_label ->
  kwargs_get kw2 "quantization_type" (PyStr bf16_label) = PyStr bf16_label ->
  generate_answer c image prompt kw1 n = generate_answer c image prompt kw2 n.
Proof.
  intros H1 H2. unfold generate_answer. rewrite H1, H2. reflexivity.
Qed.

Lemma bf16_ignores_cache_witness :
  generate_answer Cases.all_fine (Scenario.batch 2 [8; 8; 1]) Scenario.prompt_text
    [("cache", PyBool true)] (init true)
  = generate_answer Cases.all_fine (Scenario.batch 2 [8; 8; 1]) Scenario.prompt_text
      [("quantization_type", PyStr bf16_label); ("cache", PyBool false)] (init true).
Proof.
  apply (bf16_ignores_cache Cases.all_fine (Scenario.batch 2 [8; 8; 1])
           Scenario.prompt_text [("cache", PyBool true)]
           [("quantization_type", PyStr bf16_label); ("cache", PyBool false)]
           (init true));
    reflexivity.
Defined.





(** ** Repeated requests *)

Ltac case_split_in H :=
  match type of H with
  | context [match ?x with _ => _ end] =>
      lazymatch x with
      | context [match _ with _ => _ end] => fail
      | _ => destruct x eqn:?
      end
  | context [if ?x then _ else _] =>
      lazymatch x with
      | context [match _ with _ => _ end] => fail
      | _ => destruct x eqn:?
      end
  end.

(** A load repeated on the unit it produced, with collaborators that answer
    as before, is the same run and leaves the same unit. *)
Lemma load_model_again (c : Collab) (quantization_type cache : pyval)
      (n n1 : DolphinVisionNode) (r : outcome (option string)) (t : list event) :
  load_model c quantization_type cache n = (r, n1, t) ->
  load_model c quantization_type cache n1 = (r, n1, t).
Proof.
  unfold load_model. intros H. unfold_monad. cbn in H.
  repeat (case_split_in H; cbn in H);
    injection H as <- <- <-; cbn;
    repeat (match goal with
            | E : ?x = _ |- context [?x] => rewrite E
            end; cbn);
    reflexivity.
Qed.

(** X12.  Nothing carries over from one request to the next on a unit the
    host can hold: the same request, answered by collaborators that behave
    as before, is the same run again, with the same calls (the model
    provider included), the same answer and the same unit afterwards. *)
Theorem repeated_request (c : Collab) (image prompt : pyval) (kw : kwargs)
        (n : DolphinVisionNode) :
  reachable n ->
  generate_answer c image prompt kw (final (generate_answer c image prompt kw n))
    = generate_answer c image prompt kw n.
Proof.
  intros Hn.
  destruct (generate_answer_run_without_cache c image prompt kw n
              (reachable_without_cache n Hn)) as (_ & _ & -> & _).
  destruct (load_model c (kwargs_get kw "quantization_type" (PyStr bf16_label))
              (kwargs_get kw "cache" (PyBool false)) n) as [[r n1] t1] eqn:E.
  pose proof (load_model_again _ _ _ _ _ _ _ E) as E1.
  unfold final. cbn [fst snd].
  unfold generate_answer, bind. rewrite E1, E. reflexivity.
Qed.

Lemma repeated_request_witness :
  generate_answer Cases.all_fine (Scenario.batch 1 [64; 64; 3]) Scenario.prompt_text
    [("quantization_type", PyStr int8_label)]
    (final (generate_answer Cases.all_fine (Scenario.batch 1 [64; 64; 3])
              Scenario.prompt_text [("quantization_type", PyStr int8_label)]
              (init true)))
  = generate_answer Cases.all_fine (Scenario.batch 1 [64; 64; 3])
      Scenario.prompt_text [("quantization_type", PyStr int8_label)] (init true).
Proof.
  apply (repeated_request Cases.all_fine (Scenario.batch 1 [64; 64; 3])
           Scenario.prompt_text [("quantization_type", PyStr int8_label)]
           (init true)).
  apply reach_init.
Defined.

(** X13.  On a unit the host can hold, the model name is the one set by
    [__init__], the device is "cuda" or "cpu", and there is no [cache]
    attribute: no method changes any of the three. *)
Theorem reachable_fixed_fields (n : DolphinVisionNode) :
  reachable n ->
  model_name n = "cognitivecomputations/dolphin-vision-7b" /\
  (device n = "cuda" \/ device n = "cpu") /\
  attr_cache n = None.
Proof.
  intros Hn. split; [|split; [|now apply reachable_without_cache]].
  - induction Hn as [b | c q cache n Hn IH | c image prompt kw n Hn IH | c n _ IH].
    + reflexivity.
    + destruct (load_model_run c q cache n) as (r & n' & t & E & Hname & _).
      rewrite E. cbn. congruence.
    + destruct (generate_answer_run_without_cache c image prompt kw n
                  (reachable_without_cache n Hn)) as (_ & _ & -> & _).
      destruct (load_model_run c (kwargs_get kw "quantization_type" (PyStr bf16_label))
                  (kwargs_get kw "cache" (PyBool false)) n)
        as (r & n' & t & E & Hname & _).
      rewrite E. cbn. congruence.
    + now rewrite unload_keeps_fields.
  - induction Hn as [b | c q cache n Hn IH | c image prompt kw n Hn IH | c n _ IH].
    + destruct b; auto.
    + destruct (load_model_run c q cache n) as (r & n' & t & E & _ & Hdev & _).
      rewrite E. cbn. now rewrite Hdev.
    + destruct (generate_answer_run_without_cache c image prompt kw n
                  (reachable_without_cache n Hn)) as (_ & _ & -> & _).
      destruct (load_model_run c (kwargs_get kw "quantization_type" (PyStr bf16_label))
                  (kwargs_get kw "cache" (PyBool false)) n)
        as (r & n' & t & E & _ & Hdev & _).
      rewrite E. cbn. now rewrite Hdev.
    + now rewrite unload_keeps_fields.
Qed.

Lemma reachable_fixed_fields_witness :
  model_name (final (unload Cases.all_fine
                       (final (generate_answer Cases.bad_generation PyNone PyNone []
                                 (init true)))))
    = "cognitivecomputations/dolphin-vision-7b" /\
  (device (final (unload Cases.all_fine
                    (final (generate_answer Cases.bad_generation PyNone PyNone []
                              (init true))))) = "cuda" \/
   device (final (unload Cases.all_fine
                    (final (generate_answer Cases.bad_generation PyNone PyNone []
                              (init true))))) = "cpu") /\
  attr_cache (final (unload Cases.all_fine
                       (final (generate_answer Cases.bad_generation PyNone PyNone []
                                 (init true))))) = None.
Proof.
  apply (reachable_fixed_fields
           (final (unload Cases.all_fine
                     (final (generate_answer Cases.bad_generation PyNone PyNone []
                               (init true)))))).
  apply reach_unload, reach_generate_answer, reach_init.
Defined.

(** ** More on image preprocessing *)

(** X14.  When every element has three axes with 1 or 3 channels and the
    converter accepts each, the loop converts all of them, one call per
    element in batch order, and appends the results to the list in that
    order. *)
Theorem convert_images_all (c : Collab) (imgs : list tensor)
        (pils pil_images : list PILImage) (n : DolphinVisionNode) :
  Forall2 (fun img p => well_shaped img = true /\ to_pil_image c img = Ret p)
          imgs pils ->
  convert_images c imgs pil_images n
    = (Ret (Next (pil_images ++ pils)), n, map EvToPILImage imgs).
Proof.
  intros H. revert pil_images.
  induction H as [|img p imgs pils (Hs & Hp) _ IH]; intros pil_images.
  - cbn. now rewrite app_nil_r.
  - cbn [convert_images map]. unfold bindF, bind.
    rewrite (convert_image_well_shaped c img pil_images n Hs), Hp, IH.
    now rewrite <- app_assoc.
Qed.

Lemma convert_images_all_witness :
  convert_images Scenario.happy [Tensor [4; 4; 3] []; Tensor [2; 2; 1] []] [5]
    (init false)
    = (Ret (Next ([5] ++ [0; 0])), init false,
       map EvToPILImage [Tensor [4; 4; 3] []; Tensor [2; 2; 1] []]).
Proof.
  apply (convert_images_all Scenario.happy
           [Tensor [4; 4; 3] []; Tensor [2; 2; 1] []] [0; 0] [5] (init false)).
  repeat constructor.
Defined.

(** X15.  A converter failure on a well-shaped element also ends the loop
    at once.  The message is chosen by the class of the exception alone: a
    [ValueError] raised by the converter is reported under the prefix of
    the shape checks, "Image processing error: ", everything else under
    "Error converting image tensor to PIL Image: ". *)
Theorem convert_images_converter_raises (c : Collab) (good : list tensor)
        (bad : tensor) (rest : list tensor) (pil_images : list PILImage)
        (n : DolphinVisionNode) (e : exn) :
  Forall (fun img => well_shaped img = true /\
                     exists p, to_pil_image c img = Ret p) good ->
  well_shaped bad = true ->
  to_pil_image c bad = Raise e ->
  convert_images c (good ++ bad :: rest) pil_images n
    = (Ret (Return ((match exn_cls e with
                     | ValueError => "Image processing error: "
                     | _ => "Error converting image tensor to PIL Image: "
                     end) +++ exn_msg e)),
       n, map EvToPILImage (good ++ [bad])).
Proof.
  intros Hgood Hs He.
  rewrite map_app.
  apply (convert_images_stops c good bad rest n _ [EvToPILImage bad] Hgood).
  intros acc. now rewrite (convert_image_well_shaped c bad acc n Hs), He.
Qed.

Lemma convert_images_converter_raises_witness :
  convert_images Cases.bad_converter ([] ++ Tensor [4; 4; 3] [] :: [Tensor [4; 4; 3] []])
    [] (init false)
    = (Ret (Return "Image processing error: pic should be Tensor or ndarray"),
       init false, map EvToPILImage ([] ++ [Tensor [4; 4; 3] []])).
Proof.
  apply (convert_images_converter_raises Cases.bad_converter []
           (Tensor [4; 4; 3] []) [Tensor [4; 4; 3] []] [] (init false)
           (Exn ValueError "pic should be Tensor or ndarray")).
  - constructor.
  - reflexivity.
  - reflexivity.
Defined.

Lemma chunks_length (k size : nat) (l : list Byte.byte) :
  length (chunks k size l) = k.
Proof.
  revert l. induction k as [|k IH]; intros l; cbn; [reflexivity|].
  now rewrite IH.
Qed.

(** Iterating a tensor with at least one axis gives as many elements as
    the first axis is long, each with the remaining axes as its shape. *)
Lemma iterate_elements (t : tensor) (d : nat) (rest : list nat) :
  shape t = d :: rest ->
  exists imgs,
    iterate t = Ret imgs /\
    length imgs = d /\
    Forall (fun img => shape img = rest) imgs.
Proof.
  intros H. unfold iterate. rewrite H. eexists. split; [reflexivity|]. split.
  - now rewrite length_map, chunks_length.
  - apply Forall_forall. intros img Hin.
    apply in_map_iff in Hin. destruct Hin as (b & <- & _). reflexivity.
Qed.

(** An element that fails the shape tests ends the round with a message,
    before the converter is called. *)
Lemma convert_image_rejects (c : Collab) (img : tensor) (n : DolphinVisionNode) :
  well_shaped img = false ->
  exists msg,
    is_error_message msg = true /\
    forall pil_images,
      convert_image c img pil_images n = (Ret (Return msg), n, []).
Proof.
  intros H. unfold well_shaped in H.
  destruct (nth_error (shape img) 2) as [ch|] eqn:Hn.
  - cbv beta iota in H.
    destruct ((ch =? 1)%nat || (ch =? 3)%nat) eqn:Hch.
    + rewrite andb_true_r in H. eexists. split; [|intros acc;
        apply convert_image_extra_axes with (ch := ch); assumption].
      error_message.
    + eexists. split; [|intros acc;
        apply convert_image_bad_channels with (ch := ch); assumption].
      error_message.
  - apply nth_error_None in Hn.
    eexists. split; [|intros acc; apply convert_image_few_axes; lia].
    error_message.
Qed.

(** X16.  The elements of a tensor all have the same shape, so a batch
    tensor is never converted in part because of its shape: if the element
    shape fails the tests and the batch is not empty, the loop returns its
    message on the first element and the converter is not called at all. *)
Theorem tensor_batch_rejected_whole (c : Collab) (t : tensor) (d : nat)
        (rest : list nat) (n : DolphinVisionNode) :
  shape t = d :: rest ->
  0 < d ->
  well_shaped (Tensor rest []) = false ->
  exists imgs msg,
    iterate t = Ret imgs /\
    convert_images c imgs [] n = (Ret (Return msg), n, []) /\
    is_error_message msg = true.
Proof.
  intros Hshape Hd Hbad.
  destruct (iterate_elements t d rest Hshape) as (imgs & Hit & Hlen & Hall).
  destruct imgs as [|img imgs]; [cbn in Hlen; lia|].
  pose proof (Forall_inv Hall) as Himg. cbv beta in Himg.
  assert (Hw : well_shaped img = false).
  { unfold well_shaped in *. cbn [shape] in Hbad. now rewrite Himg. }
  destruct (convert_image_rejects c img n Hw) as (msg & Hmsg & Hrun).
  exists (img :: imgs), msg. split; [exact Hit|]. split; [|exact Hmsg].
  cbn [convert_images]. unfold bindF, bind. rewrite Hrun. reflexivity.
Qed.

Lemma tensor_batch_rejected_whole_witness :
  exists imgs msg,
    iterate (Tensor [3; 64; 64; 5] []) = Ret imgs /\
    convert_images Scenario.happy imgs [] (init false)
      = (Ret (Return msg), init false, []) /\
    is_error_message msg = true.
Proof.
  apply (tensor_batch_rejected_whole Scenario.happy (Tensor [3; 64; 64; 5] [])
           3 [64; 64; 5] (init false)).
  - reflexivity.
  - lia.
  - reflexivity.
Defined.

(** ** More on encoding *)

Lemma split_length (text : string) :
  length (split image_marker text) = S (occurrences image_marker text).
Proof.
  remember (String.length text) as k eqn:Hk.
  revert text Hk. induction k as [k IH] using lt_wf_ind. intros text ->.
  unfold image_marker in *. rewrite split_eq.
  destruct (find "<image>" text) as [[p r]|] eqn:F.
  - pose proof (find_shorter _ _ _ _ _ F) as Hlt.
    pose proof (find_marker_occurrences _ _ _ F) as Ho.
    unfold image_marker in Ho. rewrite Ho. cbn [length]. f_equal.
    exact (IH _ Hlt r eq_refl).
  - apply find_None in F. now rewrite F.
Qed.

(** X17.  When the rendered chat text holds no image marker, the encoder
    tokenizes the whole text as one chunk and then fails on
    [text_chunks[1]] with an [IndexError], "list index out of range"; no
    marker is supplied and no other check is made.  (A tokenizer failure
    on that chunk comes first.) *)
Theorem encode_prompt_no_marker (c : Collab) (tk : Tokenizer)
        (n : DolphinVisionNode) (text : string) :
  tokenizer n = Some tk ->
  occurrences image_marker text = 0 ->
  encode_prompt c text n
    = (match tokenize c tk text with
       | Ret _ => Raise (Exn IndexError "list index out of range")
       | Raise e => Raise e
       end, n, [EvTokenize text]).
Proof.
  intros Htk H0. unfold image_marker in *.
  apply find_None in H0.
  unfold encode_prompt, image_marker. rewrite split_eq, H0.
  cbn [tokenize_chunks]. unfold_monad. cbn. rewrite Htk. cbn.
  destruct (tokenize c tk text); reflexivity.
Qed.

Lemma encode_prompt_no_marker_witness :
  encode_prompt Cases.markerless_template "USER: describe ASSISTANT:" Cases.loaded
    = (match tokenize Cases.markerless_template 7 "USER: describe ASSISTANT:" with
       | Ret _ => Raise (Exn IndexError "list index out of range")
       | Raise e => Raise e
       end, Cases.loaded, [EvTokenize "USER: describe ASSISTANT:"]).
Proof.
  apply (encode_prompt_no_marker Cases.markerless_template 7 Cases.loaded
           "USER: describe ASSISTANT:");
    reflexivity.
Defined.

(** The request as a whole then answers through the outer handler. *)
Lemma generate_answer_no_marker :
  result (generate_answer Cases.markerless_template (Scenario.batch 1 [64; 64; 3])
            Scenario.prompt_text [] (init false))
    = Ret "An unexpected error occurred: list index out of range".
Proof. reflexivity. Qed.

(** X18.  With a tokenizer that answers on every chunk, the encoder calls
    it once per chunk of the rendered text, in order, whether or not the
    row can then be built: one call more than there are image markers.
    The chunks are what is left of the text when the markers are taken
    out: joined by the marker they give the text back. *)
Theorem encode_prompt_tokenizer_calls (c : Collab) (tk : Tokenizer)
        (n : DolphinVisionNode) (text : string) :
  tokenizer n = Some tk ->
  tokenizer_total c tk ->
  trace (encode_prompt c text n) = map EvTokenize (split image_marker text) /\
  length (trace (encode_prompt c text n)) = S (occurrences image_marker text) /\
  String.concat image_marker (split image_marker text) = text /\
  final (encode_prompt c text n) = n.
Proof.
  intros Htk Htot.
  destruct (tokenize_chunks_run c tk n (split image_marker text) Htk Htot)
    as (idss & R & _).
  assert (E : trace (encode_prompt c text n)
              = map EvTokenize (split image_marker text) /\
              final (encode_prompt c text n) = n).
  { unfold encode_prompt. unfold_monad. rewrite R. cbn.
    destruct (list_index idss 0); cbn; rewrite ?app_nil_r; auto.
    destruct (list_index idss 1); cbn; rewrite ?app_nil_r; auto.
    destruct (torch_tensor_long _); cbn; rewrite ?app_nil_r; auto. }
  destruct E as [Et Ef]. rewrite Et.
  repeat split; auto.
  - now rewrite length_map, split_length.
  - apply split_join.
Qed.

Lemma encode_prompt_tokenizer_calls_witness :
  trace (encode_prompt Scenario.happy "a<image>b<image>c" Cases.loaded)
    = map EvTokenize (split image_marker "a<image>b<image>c") /\
  length (trace (encode_prompt Scenario.happy "a<image>b<image>c" Cases.loaded))
    = S (occurrences image_marker "a<image>b<image>c") /\
  String.concat image_marker (split image_marker "a<image>b<image>c")
    = "a<image>b<image>c" /\
  final (encode_prompt Scenario.happy "a<image>b<image>c" Cases.loaded)
    = Cases.loaded.
Proof.
  apply (encode_prompt_tokenizer_calls Scenario.happy 7 Cases.loaded
           "a<image>b<image>c").
  - reflexivity.
  - apply happy_tokenizer_total.
Defined.

(** Whatever the tokenizer does, a row that gets built is the only row of
    its batch and holds the sentinel. *)
Lemma encode_prompt_row (c : Collab) (text : string) (n : DolphinVisionNode) :
  exists r t,
    encode_prompt c text n = (r, n, t) /\
    forallb is_tokenize t = true /\
    (forall input_ids, r = Ret input_ids ->
                       exists row, input_ids = [row] /\ In IMAGE_TOKEN_INDEX row).
Proof.
  unfold encode_prompt.
  destruct (tokenize_chunks_quiet c (split image_marker text) n)
    as (r & t & E & Ht).
  unfold_monad. rewrite E. destruct r as [idss|e];
    [|do 2 eexists; split; [reflexivity|]; split; [exact Ht | discriminate]].
  destruct (list_index idss 0) as [c0|e]; cbn; rewrite ?app_nil_r;
    [|do 2 eexists; split; [reflexivity|]; split; [exact Ht | discriminate]].
  destruct (list_index idss 1) as [c1|e]; cbn; rewrite ?app_nil_r;
    [|do 2 eexists; split; [reflexivity|]; split; [exact Ht | discriminate]].
  unfold torch_tensor_long.
  destruct (forallb in_int64 (c0 ++ IMAGE_TOKEN_INDEX :: c1)); cbn;
    rewrite ?app_nil_r;
    do 2 eexists; (split; [reflexivity|]); (split; [exact Ht|]);
    [|discriminate].
  intros input_ids [= <-]. eexists. split; [reflexivity|].
  apply in_or_app. right. now left.
Qed.

(** ** The stages of a request *)

Lemma forallb_filter_nil (P Q : event -> bool) (t : list event) :
  (forall ev, P ev = true -> Q ev = false) ->
  forallb P t = true -> filter Q t = [].
Proof.
  intros HPQ. induction t as [|ev t IH]; [reflexivity|].
  cbn. intros H. apply andb_prop in H. destruct H as [H1 H2].
  now rewrite (HPQ _ H1), IH.
Qed.

Ltac loop_step_keep :=
  match goal with
  | |- context [convert_images ?c ?l ?acc ?n] =>
      let E := fresh "E" in
      destruct (convert_images_run c l acc n) as (? & ? & E & ? & ?);
      rewrite E; clear E
  | |- context [encode_prompt ?c ?text ?n] =>
      let E := fresh "E" in
      destruct (encode_prompt_row c text n) as (? & ? & E & ? & ?);
      rewrite E; clear E
  end.

Ltac run_describe :=
  unfold describe_images, self_cache; unfold_monad; cbn;
  repeat (first [ loop_step_keep | case_split ]; cbn).

Ltac quiet_trace :=
  repeat first
    [ rewrite existsb_app
    | rewrite filter_app
    | rewrite length_app
    | match goal with
      | H : forallb ?P ?x = true |- context [existsb ?Q ?x] =>
          rewrite (forallb_excludes P Q x ltac:(intros []; cbn; congruence) H)
      | H : forallb ?P ?x = true |- context [filter ?Q ?x] =>
          rewrite (forallb_filter_nil P Q x ltac:(intros []; cbn; congruence) H)
      end
    | progress cbn ].

(** In the [try] block the collaborators are called in one order, each
    stage at most once: chat template, image processing, the two device
    transfers, generation, decoding, unloading. *)
Lemma describe_images_order (c : Collab) (image_t : tensor) (prompt_s : string)
      (n : DolphinVisionNode) :
  let t := trace (describe_images c image_t prompt_s n) in
  (existsb is_unload t = true -> existsb is_decode t = true) /\
  (existsb is_decode t = true -> existsb is_generate t = true) /\
  (existsb is_generate t = true -> existsb is_features_to_device t = true) /\
  (existsb is_features_to_device t = true -> existsb is_ids_to_device t = true) /\
  (existsb is_ids_to_device t = true -> existsb is_process_images t = true) /\
  (existsb is_process_images t = true -> existsb is_chat_template t = true) /\
  length (filter is_chat_template t) <= 1 /\
  length (filter is_process_images t) <= 1 /\
  length (filter is_generate t) <= 1 /\
  length (filter is_decode t) <= 1 /\
  length (filter is_unload t) <= 1.
Proof.
  run_describe; quiet_trace;
    repeat split; intros; first [reflexivity | discriminate | lia].
Qed.

(** A request either stops at the guard or at a type check, right after
    the load step, or runs the [try] block on the unit the load step
    left. *)
Lemma generate_answer_stages (c : Collab) (image prompt : pyval) (kw : kwargs)
      (n : DolphinVisionNode) :
  exists r n1 t1,
    load_model c (kwargs_get kw "quantization_type" (PyStr bf16_label))
               (kwargs_get kw "cache" (PyBool false)) n = (Ret r, n1, t1) /\
    forallb is_load_event t1 = true /\
    device n1 = device n /\
    ((exists msg, generate_answer c image prompt kw n = (Ret msg, n1, t1)) \/
     (exists image_t prompt_s m tk,
         image = PyTensor image_t /\ prompt = PyStr prompt_s /\
         model n1 = Some m /\ tokenizer n1 = Some tk /\
         generate_answer c image prompt kw n
           = (Ret (answer_of (result (describe_images c image_t prompt_s n1))),
              final (describe_images c image_t prompt_s n1),
              t1 ++ trace (describe_images c image_t prompt_s n1)))).
Proof.
  destruct (load_model_run c (kwargs_get kw "quantization_type" (PyStr bf16_label))
              (kwargs_get kw "cache" (PyBool false)) n)
    as (r & n1 & t1 & E & _ & Hdev & _ & Hload).
  exists r, n1, t1. repeat (split; [assumption|]).
  destruct (is_tensor image && is_str prompt) eqn:Hty.
  - destruct image as [| | | |image_t|]; try discriminate.
    destruct prompt as [| | |prompt_s| |]; try discriminate.
    destruct (generate_answer c (PyTensor image_t) (PyStr prompt_s) kw n)
      as [[x nf] tf] eqn:G.
    unfold generate_answer, bind at 1 in G. rewrite E in G.
    unfold def, bindF at 1, bind, stmt, get, return_, ret in G. cbn in G.
    destruct (model n1) as [m|] eqn:Hm; cbn in G;
      [destruct (tokenizer n1) as [tk|] eqn:Htk; cbn in G|];
      try (injection G as <- <- <-; left; eexists; now rewrite app_nil_r).
    right. exists image_t, prompt_s, m, tk. repeat (split; [reflexivity|]).
    unfold try_except, except_Exception in G.
    destruct (describe_images c image_t prompt_s n1) as [[[[a|a]|e] n2] t2];
      cbn in G; injection G as <- <- <-;
      unfold result, final, trace; cbn; now rewrite ?app_nil_r.
  - destruct (generate_answer_type_checks c image prompt kw n Hty)
      as (r' & n1' & t1' & E' & G).
    rewrite E in E'. injection E' as <- <- <-.
    left. eexists. exact G.
Qed.

(** X19.  Within one request the collaborators of the pipeline are called
    in one order and each stage at most once: chat template, image
    processing, transfer of the ids, transfer of the image features,
    generation, decoding, unloading.  No stage runs unless every earlier
    one was reached. *)
Theorem pipeline_order (c : Collab) (image prompt : pyval) (kw : kwargs)
        (n : DolphinVisionNode) :
  let t := trace (generate_answer c image prompt kw n) in
  (existsb is_unload t = true -> existsb is_decode t = true) /\
  (existsb is_decode t = true -> existsb is_generate t = true) /\
  (existsb is_generate t = true -> existsb is_features_to_device t = true) /\
  (existsb is_features_to_device t = true -> existsb is_ids_to_device t = true) /\
  (existsb is_ids_to_device t = true -> existsb is_process_images t = true) /\
  (existsb is_process_images t = true -> existsb is_chat_template t = true) /\
  length (filter is_chat_template t) <= 1 /\
  length (filter is_process_images t) <= 1 /\
  length (filter is_generate t) <= 1 /\
  length (filter is_decode t) <= 1 /\
  length (filter is_unload t) <= 1.
Proof.
  destruct (generate_answer_stages c image prompt kw n)
    as (r & n1 & t1 & _ & Hload & _ & [(msg & G) | (image_t & prompt_s & m & tk & _ & _ & _ & _ & G)]);
    rewrite G; unfold trace; cbn [snd].
  - quiet_trace. repeat split; intros; first [discriminate | lia].
  - pose proof (describe_images_order c image_t prompt_s n1) as O.
    unfold trace in O. cbn zeta in O.
    destruct (describe_images c image_t prompt_s n1) as [[x nf] t2].
    cbn [snd] in *. quiet_trace. exact O.
Qed.

Ltac in_trace :=
  repeat first [ rewrite in_app_iff | progress cbn [In hd] ]; eauto 20.

(** How a failure inside the [try] block ends the block, told by the last
    stage that was reached. *)
Lemma describe_images_failures (c : Collab) (image_t : tensor)
      (prompt_s : string) (n : DolphinVisionNode) :
  let run := describe_images c image_t prompt_s n in
  (existsb is_process_images (trace run) = true ->
   existsb is_ids_to_device (trace run) = false ->
   exists m pils e,
     process_images c m pils = Raise e /\
     result run
       = Ret (Return ("Error processing images with the model: " +++ exn_msg e))) /\
  (existsb is_ids_to_device (trace run) = true ->
   existsb is_generate (trace run) = false ->
   exists e,
     ((exists ids, ids_to_device c (device n) ids = Raise e) \/
      (exists feats, features_to_device c (device n) feats = Raise e)) /\
     result run = Raise e) /\
  (existsb is_generate (trace run) = true ->
   existsb is_decode (trace run) = false ->
   exists m ids feats e,
     generate c m ids feats 2048%Z = Raise e /\
     result run = Ret (Return ("Error during model generation: " +++ exn_msg e))).
Proof.
  run_describe; quiet_trace;
    repeat split; intros; try discriminate; eauto 10.
Qed.

(** X20.  The answer tells which stage failed.  If image processing was
    the last stage reached, it raised and the answer is "Error processing
    images with the model: " and its message; if generation was the last
    stage reached, it raised and the answer is "Error during model
    generation: " and its message; a failure of either device transfer is
    answered by the outer handler, "An unexpected error occurred: ". *)
Theorem stage_failures (c : Collab) (image prompt : pyval) (kw : kwargs)
        (n : DolphinVisionNode) :
  let run := generate_answer c image prompt kw n in
  (existsb is_process_images (trace run) = true ->
   existsb is_ids_to_device (trace run) = false ->
   exists m pils e,
     process_images c m pils = Raise e /\
     result run = Ret ("Error processing images with the model: " +++ exn_msg e)) /\
  (existsb is_ids_to_device (trace run) = true ->
   existsb is_generate (trace run) = false ->
   exists e,
     ((exists ids, ids_to_device c (device n) ids = Raise e) \/
      (exists feats, features_to_device c (device n) feats = Raise e)) /\
     result run = Ret ("An unexpected error occurred: " +++ exn_msg e)) /\
  (existsb is_generate (trace run) = true ->
   existsb is_decode (trace run) = false ->
   exists m ids feats e,
     generate c m ids feats 2048%Z = Raise e /\
     result run = Ret ("Error during model generation: " +++ exn_msg e)).
Proof.
  destruct (generate_answer_stages c image prompt kw n)
    as (r & n1 & t1 & _ & Hload & Hdev & [(msg & G) | (image_t & prompt_s & m & tk & _ & _ & _ & _ & G)]);
    cbn zeta; rewrite G; unfold trace, result; cbn [fst snd].
  - quiet_trace. repeat split; intros; discriminate.
  - pose proof (describe_images_failures c image_t prompt_s n1) as F.
    cbn zeta in F. unfold trace, result in F. rewrite Hdev in F.
    destruct (describe_images c image_t prompt_s n1) as [[x nf] t2].
    cbn [fst snd] in *. quiet_trace.
    destruct F as (F1 & F2 & F3). repeat split.
    + intros H1 H2. destruct (F1 H1 H2) as (m' & pils & e & He & ->). eauto.
    + intros H1 H2. destruct (F2 H1 H2) as (e & He & ->). eauto.
    + intros H1 H2. destruct (F3 H1 H2) as (m' & ids & feats & e & He & ->).
      eauto 6.
Qed.

Lemma stage_failures_witness :
  result (generate_answer Cases.bad_images (Scenario.batch 1 [64; 64; 3])
            Scenario.prompt_text [] (init false))
    = Ret "Error processing images with the model: CUDA out of memory" /\
  result (generate_answer Cases.bad_generation (Scenario.batch 1 [64; 64; 3])
            Scenario.prompt_text [] (init false))
    = Ret "Error during model generation: CUDA out of memory".
Proof.
  split.
  - destruct (stage_failures Cases.bad_images (Scenario.batch 1 [64; 64; 3])
                Scenario.prompt_text [] (init false)) as (F & _ & _).
    destruct (F eq_refl eq_refl) as (m & pils & e & He & ->).
    now injection He as <-.
  - destruct (stage_failures Cases.bad_generation (Scenario.batch 1 [64; 64; 3])
                Scenario.prompt_text [] (init false)) as (_ & _ & F).
    destruct (F eq_refl eq_refl) as (m & ids & feats & e & He & ->).
    now injection He as <-.
Defined.

(** What the model and the decoder are handed. *)
Lemma describe_images_handover (c : Collab) (image_t : tensor)
      (prompt_s : string) (n : DolphinVisionNode) :
  let t := trace (describe_images c image_t prompt_s n) in
  (existsb is_generate t = true ->
   exists m row, In (EvGenerate m [row]) t /\ In IMAGE_TOKEN_INDEX row) /\
  (existsb is_decode t = true ->
   exists m row feats out,
     generate c m [row] feats 2048%Z = Ret out /\
     In (EvDecode (skipn (length row) out)) t).
Proof.
  run_describe; quiet_trace; (split; intros Hreached; try discriminate);
    match goal with
    | H : forall input_ids, Ret ?a = Ret input_ids -> _ |- _ =>
        destruct (H a eq_refl) as (row & -> & Hrow)
    end;
    first
      [ do 2 eexists; split; [in_trace | exact Hrow]
      | do 4 eexists; split; [eassumption | in_trace] ].
Qed.

(** X21.  The model is only ever asked to generate from a batch of one row
    that holds the sentinel -200, and the decoder is only ever handed the
    ids that generation returned beyond the length of that row; when
    generation returns no more ids than the row has, the decoder is handed
    the empty list. *)
Theorem generation_handover (c : Collab) (image prompt : pyval) (kw : kwargs)
        (n : DolphinVisionNode) :
  let t := trace (generate_answer c image prompt kw n) in
  (existsb is_generate t = true ->
   exists m row, In (EvGenerate m [row]) t /\ In (-200)%Z row) /\
  (existsb is_decode t = true ->
   exists m row feats out,
     generate c m [row] feats 2048%Z = Ret out /\
     In (EvDecode (skipn (length row) out)) t /\
     (length out <= length row -> In (EvDecode []) t)).
Proof.
  destruct (generate_answer_stages c image prompt kw n)
    as (r & n1 & t1 & _ & Hload & _ & [(msg & G) | (image_t & prompt_s & m & tk & _ & _ & _ & _ & G)]);
    cbn zeta; rewrite G; unfold trace; cbn [snd].
  - quiet_trace. split; intros; discriminate.
  - pose proof (describe_images_handover c image_t prompt_s n1) as F.
    cbn zeta in F. unfold trace in F.
    destruct (describe_images c image_t prompt_s n1) as [[x nf] t2].
    cbn [snd] in *. destruct F as (F1 & F2).
    rewrite !existsb_app.
    rewrite (forallb_excludes is_load_event is_generate t1
               ltac:(intros []; cbn; congruence) Hload).
    rewrite (forallb_excludes is_load_event is_decode t1
               ltac:(intros []; cbn; congruence) Hload).
    cbn [orb]. split.
    + intros H. destruct (F1 H) as (m' & row & Hin & Hrow).
      exists m', row. split; [apply in_or_app; now right | exact Hrow].
    + intros H. destruct (F2 H) as (m' & row & feats & out & Hg & Hin).
      exists m', row, feats, out. split; [exact Hg|].
      split; [apply in_or_app; now right|].
      intros Hlen. apply in_or_app. right.
      now rewrite (skipn_all2 out Hlen) in Hin.
Qed.

Lemma generation_handover_witness :
  exists m row feats out,
    generate Cases.all_fine m [row] feats 2048%Z = Ret out /\
    In (EvDecode (skipn (length row) out))
       (trace (generate_answer Cases.all_fine (Scenario.batch 1 [64; 64; 3])
                 Scenario.prompt_text [] (init false))) /\
    In (EvDecode [])
       (trace (generate_answer Cases.all_fine (Scenario.batch 1 [64; 64; 3])
                 Scenario.prompt_text [] (init false))).
Proof.
  destruct (generation_handover Cases.all_fine (Scenario.batch 1 [64; 64; 3])
              Scenario.prompt_text [] (init false)) as (_ & F).
  destruct (F eq_refl) as (m & row & feats & out & Hg & Hin & Hempty).
  exists m, row, feats, out. split; [exact Hg|]. split; [exact Hin|].
  apply Hempty. cbn in Hg. injection Hg as <-. cbn. lia.
Defined.

(** ** Degenerate image tensors *)




(** X23.  A tensor without axes cannot be iterated: on a unit that passes
    the guard the request ends in the outer handler before any pipeline
    collaborator is called, so the run is the load step and an answer that
    begins "An unexpected error occurred: "; on a unit that does not pass
    the guard the answer is "Model not loaded". *)
Theorem scalar_image (c : Collab) (image_t : tensor) (prompt_s : string)
        (kw : kwargs) (n : DolphinVisionNode) :
  shape image_t = [] ->
  let loaded := load_model c (kwargs_get kw "quantization_type" (PyStr bf16_label))
                           (kwargs_get kw "cache" (PyBool false)) n in
  let run := generate_answer c (PyTensor image_t) (PyStr prompt_s) kw n in
  trace run = trace loaded /\
  final run = final loaded /\
  exists msg,
    result run =
      Ret (if is_absent (model (final loaded)) || is_absent (tokenizer (final loaded))
           then model_not_loaded_msg
           else "An unexpected error occurred: " +++ msg).
Proof.
  intros Hshape loaded run. subst loaded run.
  destruct (load_model_run c (kwargs_get kw "quantization_type" (PyStr bf16_label))
              (kwargs_get kw "cache" (PyBool false)) n)
    as (r & n1 & t1 & E & _).
  destruct (generate_answer c (PyTensor image_t) (PyStr prompt_s) kw n)
    as [[x nf] tf] eqn:G.
  unfold generate_answer, bind at 1 in G. rewrite E in G.
  unfold def, bindF at 1, bind, stmt, get, return_, ret in G. cbn in G.
  rewrite E. unfold trace, final, result. cbn [fst snd].
  destruct (is_absent (model n1) || is_absent (tokenizer n1)) eqn:Hg; cbn in G.
  - injection G as <- <- <-. rewrite app_nil_r.
    split; [reflexivity|]. split; [reflexivity|]. now exists "".
  - unfold try_except, except_Exception, describe_images, iterate in G.
    rewrite Hshape in G. unfold_monad. cbn in G.
    injection G as <- <- <-. rewrite ?app_nil_r.
    split; [reflexivity|]. split; [reflexivity|]. eexists. reflexivity.
Qed.

Lemma scalar_image_witness :
  trace (generate_answer Cases.all_fine (PyTensor (Tensor [] [])) (PyStr "hi") []
           (init false))
    = trace (load_model Cases.all_fine (PyStr bf16_label) (PyBool false) (init false)) /\
  final (generate_answer Cases.all_fine (PyTensor (Tensor [] [])) (PyStr "hi") []
           (init false))
    = final (load_model Cases.all_fine (PyStr bf16_label) (PyBool false) (init false)) /\
  exists msg,
    result (generate_answer Cases.all_fine (PyTensor (Tensor [] [])) (PyStr "hi") []
              (init false))
      = Ret ("An unexpected error occurred: " +++ msg).
Proof.
  exact (scalar_image Cases.all_fine (Tensor [] []) "hi" [] (init false) eq_refl).
Defined.

(** ** The fields over time *)

(** The [try] block assigns nothing but the quantized flag. *)
Lemma describe_images_fields (c : Collab) (image_t : tensor) (prompt_s : string)
      (n : DolphinVisionNode) :
  let n' := final (describe_images c image_t prompt_s n) in
  model n' = model n /\ tokenizer n' = tokenizer n.
Proof.
  run_describe; split; first [reflexivity | congruence].
Qed.

(** X24.  No method ever clears the tokenizer field: once a tokenizer has
    been loaded the unit holds one after every later load, request and
    unload.  The model field can be lost, but only in one way: a load in
    which the quantization backend returns no model. *)
Theorem tokenizer_persists (c : Collab) (n : DolphinVisionNode) :
  (tokenizer n <> None ->
   (forall quantization_type cache,
       tokenizer (final (load_model c quantization_type cache n)) <> None) /\
   (forall image prompt kw,
       tokenizer (final (generate_answer c image prompt kw n)) <> None) /\
   tokenizer (final (unload c n)) <> None) /\
  (forall quantization_type cache,
      model n <> None ->
      model (final (load_model c quantization_type cache n)) = None ->
      exists bits,
        quantize_model c (model_name n) (device n) cache bits = Ret None).
Proof.
  assert (L : forall quantization_type cache,
             tokenizer n <> None ->
             tokenizer (final (load_model c quantization_type cache n)) <> None).
  { intros q cache. unfold load_model. run_cases; intros H; auto; discriminate. }
  split.
  - intros Htk. split; [intros; now apply L|]. split.
    + intros image prompt kw.
      destruct (generate_answer_stages c image prompt kw n)
        as (r & n1 & t1 & E & _ & _ & [(msg & G) | (image_t & prompt_s & m & tk & _ & _ & _ & Htk1 & G)]).
      * rewrite G.
        pose proof (L (kwargs_get kw "quantization_type" (PyStr bf16_label))
                      (kwargs_get kw "cache" (PyBool false)) Htk) as L1.
        rewrite E in L1. exact L1.
      * rewrite G. unfold final at 1. cbn [fst snd].
        destruct (describe_images_fields c image_t prompt_s n1) as (_ & ->).
        rewrite Htk1. discriminate.
    + now rewrite unload_keeps_fields.
  - intros q cache. unfold load_model.
    run_cases; intros Hm Hnone; try discriminate; try (now elim Hm); eauto.
Qed.

Lemma tokenizer_persists_witness :
  tokenizer (final (load_model Cases.null_quantizer (PyStr int8_label)
                      (PyBool false) Cases.loaded)) <> None /\
  exists bits,
    quantize_model Cases.null_quantizer (model_name Cases.loaded)
      (device Cases.loaded) (PyBool false) bits = Ret None.
Proof.
  destruct (tokenizer_persists Cases.null_quantizer Cases.loaded) as (Hk & Hm).
  assert (Htk : tokenizer Cases.loaded <> None) by discriminate.
  destruct (Hk Htk) as (Hload & _ & _).
  split; [apply Hload|].
  apply (Hm (PyStr int8_label) (PyBool false)); [discriminate | reflexivity].
Defined.

(** ** The fingerprint and the type checks *)


